(** * md2pdf: the Markdown-to-PDF converter of [md2pdf/converter.py]

    A shallow embedding of the converter and the properties of its
    header extraction, placeholder substitution, template parameter
    serialisation, temporary-file handling and batch driver.

    Conventions.
    - A Python [str] is a [string]; every [ascii] stands for one character
      (code points 0..255), so [String.length] is Python's [len].
    - A [pathlib.Path] is a pair (directory, file name); two paths denote
      the same file exactly when the pairs are equal.
    - The file system is a finite map from paths to file contents.
    - External programs ([which], [pandoc], [typst], [pdfunite], [pdftk]),
      the YAML loader, the CSV reader and the optional PyPDF2 package are
      parameters of the model: the converter treats them as opaque. *)

From Stdlib Require Import ZArith NArith Ascii String List Bool Lia DecimalString.
From Stdlib Require Import DecimalNat.
From stdpp Require Import base gmap strings list.

Local Open Scope string_scope.

(* ===================================================================== *)
(** ** Python string primitives *)
(* ===================================================================== *)

Module PyStr.

Definition chr (n : nat) : string := String (ascii_of_nat n) "".

(** Characters that cannot be written inside a literal here. *)
Definition NL : string := chr 10.
Definition DQ : string := chr 34.
Definition BS : string := chr 92.

Definition in_range (lo hi n : N) : bool := ((lo <=? n) && (n <=? hi))%N.

(** [str.isspace] on one character; the same class is the regular
    expression [\s] on [str] patterns. *)
Definition isspace (c : ascii) : bool :=
  let n := N_of_ascii c in
  (in_range 9 13 n || in_range 28 32 n || (n =? 133) || (n =? 160))%N.

(** The regular expression class [\w] on [str] patterns: alphanumeric
    characters and the underscore. *)
Definition isword (c : ascii) : bool :=
  let n := N_of_ascii c in
  (in_range 48 57 n || in_range 65 90 n || (n =? 95) || in_range 97 122 n
   || (n =? 170) || (n =? 178) || (n =? 179) || (n =? 181) || (n =? 185)
   || (n =? 186) || in_range 188 190 n || in_range 192 214 n
   || in_range 216 246 n || in_range 248 255 n)%N.

Definition lower_char (c : ascii) : ascii :=
  let n := N_of_ascii c in
  if (in_range 65 90 n || (in_range 192 222 n && negb (n =? 215)))%N
  then ascii_of_N (n + 32) else c.

Fixpoint map_chars (f : ascii -> ascii) (s : string) : string :=
  match s with
  | "" => ""
  | String c s' => String (f c) (map_chars f s')
  end.

(** [s.lower()] *)
Definition lower (s : string) : string := map_chars lower_char s.

(** [s.startswith(p)] *)
Fixpoint startswith (p s : string) : bool :=
  match p, s with
  | "", _ => true
  | String _ _, "" => false
  | String a p', String b s' => Ascii.eqb a b && startswith p' s'
  end.

(** [s[n:]] *)
Fixpoint slice_from (n : nat) (s : string) : string :=
  match n, s with
  | 0, _ => s
  | S _, "" => ""
  | S n', String _ s' => slice_from n' s'
  end.

(** [p in s] *)
Fixpoint contains (p s : string) : bool :=
  startswith p s ||
  match s with
  | "" => false
  | String _ s' => contains p s'
  end.

Fixpoint has_char (a : ascii) (s : string) : bool :=
  match s with
  | "" => false
  | String c s' => Ascii.eqb a c || has_char a s'
  end.

(** The text before and after the leftmost occurrence of [sep], when
    there is one. *)
Fixpoint cut (sep s : string) : option (string * string) :=
  if startswith sep s then Some ("", slice_from (String.length sep) s)
  else match s with
       | "" => None
       | String c s' =>
           match cut sep s' with
           | Some (a, b) => Some (String c a, b)
           | None => None
           end
       end.

(** [s.split(sep, 2)] for a non-empty [sep]: at most two cuts, from the
    left, hence at most three parts. *)
Definition split2 (sep s : string) : list string :=
  match cut sep s with
  | None => [s]
  | Some (a, r) =>
      match cut sep r with
      | None => [a; r]
      | Some (b, c) => [a; b; c]
      end
  end.

(** [s.replace(old, new)]: leftmost, non-overlapping occurrences.  [skip]
    counts the characters of the current occurrence still to be passed. *)
Fixpoint replace_from (old new : string) (skip : nat) (s : string) : string :=
  match s with
  | "" => ""
  | String c s' =>
      match skip with
      | S k => replace_from old new k s'
      | 0 =>
          if startswith old s
          then new +:+ replace_from old new (String.length old - 1) s'
          else String c (replace_from old new 0 s')
      end
  end.

(** With an empty [old], Python inserts [new] before every character and
    at the end. *)
Fixpoint intersperse (new s : string) : string :=
  match s with
  | "" => new
  | String c s' => new +:+ String c (intersperse new s')
  end.

Definition replace (old new s : string) : string :=
  match old with
  | "" => intersperse new s
  | String _ _ => replace_from old new 0 s
  end.

(** [s.lstrip()], [s.rstrip()], [s.strip()] *)
Fixpoint lstrip (s : string) : string :=
  match s with
  | "" => ""
  | String c s' => if isspace c then lstrip s' else s
  end.

Fixpoint rstrip (s : string) : string :=
  match s with
  | "" => ""
  | String c s' =>
      match rstrip s' with
      | "" => if isspace c then "" else String c ""
      | r => String c r
      end
  end.

Definition strip (s : string) : string := lstrip (rstrip s).

(** [sep.join(l)] *)
Fixpoint join (sep : string) (l : list string) : string :=
  match l with
  | [] => ""
  | [x] => x
  | x :: l' => x +:+ sep +:+ join sep l'
  end.

(** [str(n)] for integers. *)
Definition str_of_nat (n : nat) : string := NilZero.string_of_uint (Nat.to_uint n).
Definition str_of_Z (z : Z) : string := NilZero.string_of_int (Z.to_int z).

(** Is [s] made of white space only? *)
Fixpoint all_space (s : string) : bool :=
  match s with
  | "" => true
  | String c s' => isspace c && all_space s'
  end.

(** Longest prefix of characters satisfying [p], and the rest. *)
Fixpoint span (p : ascii -> bool) (s : string) : string * string :=
  match s with
  | "" => ("", "")
  | String c s' =>
      if p c then let '(a, b) := span p s' in (String c a, b) else ("", s)
  end.

End PyStr.

Import PyStr.

(* ===================================================================== *)
(** ** Data model *)
(* ===================================================================== *)

(** A field value, by the run-time type the converter tests for. *)
Inductive value : Type :=
| VStr (s : string)
| VBool (b : bool)
| VInt (z : Z)
| VFloat (repr : string)  (** a float, carried with the text Python prints for it *)
| VNone
| VOther (str : string).  (** a sequence, nested mapping, date, ...: carried with its [str()] *)

(** A Python [dict] with [str] keys: insertion-ordered, keys unique. *)
Definition dict : Type := list (string * value).

(** [d[k] = v] *)
Fixpoint dict_set (k : string) (v : value) (d : dict) : dict :=
  match d with
  | [] => [(k, v)]
  | (k', v') :: d' =>
      if String.eqb k k' then (k', v) :: d' else (k', v') :: dict_set k v d'
  end.

(** [d.update(o)] *)
Definition dict_update (d o : dict) : dict :=
  fold_left (fun acc kv => dict_set (fst kv) (snd kv) acc) o d.

(** What [yaml.safe_load] does on a document. *)
Inductive loaded : Type :=
| YAMLError                 (** raises [yaml.YAMLError] *)
| LoadedNone                (** returns [None]: nothing but blanks and comments *)
| LoadedDict (d : dict)     (** returns a mapping *)
| LoadedOther (v : value).  (** returns a scalar or a sequence *)

(** The object [parse_header_fields] hands back: a [dict], or whatever
    else the loader produced. *)
Inductive pyobj : Type :=
| PDict (d : dict)
| PValue (v : value).

(** A row of [csv.DictReader]: a [dict] from column name to cell, keys
    unique and in column order; a cell missing from a short row is [None]. *)
Definition row : Type := list (string * option string).

Definition cell_value (c : option string) : value :=
  match c with
  | Some s => VStr s
  | None => VNone
  end.

(** The row as the [override_fields] of a conversion. *)
Definition dict_of_row (r : row) : dict :=
  map (fun kc => (fst kc, cell_value (snd kc))) r.

(** [k in r] and [r[k]] *)
Fixpoint row_get (k : string) (r : row) : option (option string) :=
  match r with
  | [] => None
  | (k', c) :: r' => if String.eqb k k' then Some c else row_get k r'
  end.

(* ===================================================================== *)
(** ** Paths *)
(* ===================================================================== *)

Module PyPath.

Definition path : Type := string * string.

Definition parent (p : path) : string := fst p.
Definition name (p : path) : string := snd p.

(** [dir / name] *)
Definition joinpath (dir nm : string) : path := (dir, nm).

(** [str(p)] *)
Definition path_str (p : path) : string :=
  if String.eqb (parent p) "." then name p else parent p +:+ "/" +:+ name p.

(** The file name cut at its last dot: the text before it, and the dot
    with the text after it. *)
Fixpoint rdot (s : string) : option (string * string) :=
  match s with
  | "" => None
  | String c r =>
      match rdot r with
      | Some (a, b) => Some (String c a, b)
      | None => if Ascii.eqb c "." then Some ("", s) else None
      end
  end.

(** [PurePath.stem] and [PurePath.suffix] of a file name: the last dot
    starts a suffix unless it is the first or the last character. *)
Definition name_stem (nm : string) : string :=
  match rdot nm with
  | Some (String c a, String d (String e b)) => String c a
  | _ => nm
  end.

Definition name_suffix (nm : string) : string :=
  match rdot nm with
  | Some (String c a, String d (String e b)) => String d (String e b)
  | _ => ""
  end.

Definition stem (p : path) : string := name_stem (name p).

(** [p.with_suffix(sfx)]; [None] is the [ValueError] for an empty name. *)
Definition with_suffix (sfx : string) (p : path) : option path :=
  match name p with
  | "" => None
  | String _ _ => Some (parent p, name_stem (name p) +:+ sfx)
  end.

End PyPath.

Import PyPath.

(* ===================================================================== *)
(** ** The pure stages of [convert_markdown_to_pdf] *)
(* ===================================================================== *)

(** The line that opens a header block. *)
Definition header_line : string := "---" +:+ NL.

(** Lines 86-90: remove the YAML front matter. *)
Definition strip_frontmatter (content : string) : string :=
  if startswith header_line content then
    let parts := split2 "---" content in
    if (3 <=? length parts)%nat then lstrip (nth 2 parts "") else content
  else content.

(** Lines 92-96: replace the placeholders by the string-valued fields. *)
Definition placeholder (key : string) : string := "{{" +:+ key +:+ "}}".

Definition substitute_field (content : string) (kv : string * value) : string :=
  match snd kv with
  | VStr v => replace (placeholder (fst kv)) v content
  | _ => content
  end.

Definition substitute (fields : dict) (content : string) : string :=
  fold_left substitute_field fields content.

(** Does [s] contain text of the shape [{{...}}]: an opening pair of
    braces with a closing pair somewhere after it? *)
Definition placeholder_shaped (s : string) : bool :=
  match cut "{{" s with
  | Some (_, r) => contains "}}" r
  | None => false
  end.

(** No string value of [fields] contains text of the shape [{{...}}]. *)
Definition shape_free (fields : dict) : bool :=
  forallb (fun kv => match snd kv with
                     | VStr v => negb (placeholder_shaped v)
                     | _ => true
                     end) fields.


(** Does [s] contain no brace? *)
Definition brace_free (s : string) : bool :=
  negb (has_char "{" s) && negb (has_char "}" s).

(** The names of the string-valued fields, in order. *)
Definition string_keys (fields : dict) : list string :=
  flat_map (fun kv => match snd kv with
                      | VStr _ => [fst kv]
                      | _ => []
                      end) fields.

(** The string values keep apart from the placeholders: none of them
    contains a brace, and none occurs within the name of a string-valued
    field (so none is empty). *)
Definition apart (fields : dict) : bool :=
  forallb (fun kv => match snd kv with
                     | VStr v =>
                         brace_free v
                         && forallb (fun k => negb (contains v k)) (string_keys fields)
                     | _ => true
                     end) fields.

(** Lines 137-142: the entry point named by the template.

    [match_decl s] matches the pattern [#let\s+([\w-]+)\s*\(] at the start
    of [s] and gives group 1.  Successive pieces of the pattern accept
    disjoint characters, so each greedy repetition has to take its longest
    run and no backtracking is involved. *)
Definition isname (c : ascii) : bool := isword c || Ascii.eqb c "-".

Definition match_decl (s : string) : option string :=
  if startswith "#let" s then
    let '(ws, r1) := span isspace (slice_from 4 s) in
    match ws with
    | "" => None
    | String _ _ =>
        let '(nm, r2) := span isname r1 in
        match nm with
        | "" => None
        | String _ _ =>
            let '(_, r3) := span isspace r2 in
            if startswith "(" r3 then Some nm else None
        end
    end
  else None.

(** [re.search]: the match at the leftmost offset that has one. *)
Fixpoint re_search_decl (s : string) : option string :=
  match match_decl s with
  | Some nm => Some nm
  | None =>
      match s with
      | "" => None
      | String _ s' => re_search_decl s'
      end
  end.

Definition template_func (template_content : string) : string :=
  match re_search_decl template_content with
  | Some nm => nm
  | None => "report"
  end.

(** Does the pattern match at one of the first [n] offsets of [t]? *)
Fixpoint declares_before (n : nat) (t : string) : bool :=
  match n with
  | 0 => false
  | S n' =>
      match match_decl t with
      | Some _ => true
      | None =>
          match t with
          | "" => false
          | String _ t' => declares_before n' t'
          end
      end
  end.

(** Does the pattern match anywhere in [t]? *)
Definition declares (t : string) : bool := declares_before (S (String.length t)) t.

(** Lines 144-174: the parameters of the template call. *)
Definition normalize_key (key : string) : string :=
  lower (replace "-" "_" (replace " " "_" key)).

Definition quoted (nk escaped : string) : string :=
  "  " +:+ nk +:+ ": " +:+ DQ +:+ escaped +:+ DQ +:+ ",".

Definition bracketed (nk clean : string) : string :=
  "  " +:+ nk +:+ ": [" +:+ clean +:+ "],".

Definition bare (nk token : string) : string :=
  "  " +:+ nk +:+ ": " +:+ token +:+ ",".

Definition escape_short (v : string) : string :=
  replace DQ (BS +:+ DQ) (replace BS (BS +:+ BS) v).

Definition escape_other (v : string) : string :=
  replace NL (BS +:+ "n") (replace DQ (BS +:+ DQ) (replace BS (BS +:+ BS) v)).

Definition is_long (v : string) : bool :=
  contains NL v || (100 <? String.length v)%nat.

Definition format_param (normalized_key : string) (v : value) : string :=
  match v with
  | VStr s =>
      if is_long s then bracketed normalized_key (strip s)
      else quoted normalized_key (escape_short s)
  | VBool b => bare normalized_key (if b then "true" else "false")
  | VInt z => bare normalized_key (str_of_Z z)
  | VFloat r => bare normalized_key r
  | VNone => quoted normalized_key (escape_other "None")
  | VOther str => quoted normalized_key (escape_other str)
  end.

Fixpoint build_params (fields : dict) : list string :=
  match fields with
  | [] => []
  | (key, v) :: rest =>
      if String.eqb key "template" then build_params rest
      else format_param (normalize_key key) v :: build_params rest
  end.

(** Lines 177-184: the assembled Typst document. *)
Definition typst_content (template_name func params_str typst_body : string) : string :=
  "#import " +:+ DQ +:+ template_name +:+ DQ +:+ ": *" +:+ NL +:+ NL
  +:+ "#show: " +:+ func +:+ ".with(" +:+ NL
  +:+ params_str +:+ NL
  +:+ ")" +:+ NL +:+ NL
  +:+ typst_body +:+ NL.

(** Lines 34-47 of [parse_header_fields], on the text of the file; [load]
    is [yaml.safe_load]. *)
Definition header_of (load : string -> loaded) (content : string) : pyobj :=
  if startswith header_line content then
    let parts := split2 "---" content in
    if (2 <=? length parts)%nat then
      let yaml_content := strip (nth 1 parts "") in
      match load yaml_content with
      | LoadedNone => PDict []
      | LoadedDict fields => PDict fields
      | LoadedOther v => PValue v
      | YAMLError => PDict []
      end
    else PDict []
  else PDict [].

(* ===================================================================== *)
(** ** The world: files, external programs, console *)
(* ===================================================================== *)

Inductive exn : Type :=
| CalledProcessError (stderr : string)
| FileNotFoundError
| AttributeError
| SameFileError
| ValueError
| PdfError
| SystemExit (code : Z).

Inductive message : Type :=
| MsgConvertingToTypst (nm : string)
| MsgConvertingToPdf
| MsgCreated (p : path)
| MsgConversionError (stderr : string)
| MsgTempSaved (p : path)
| MsgError (e : exn)
| MsgNotInstalled (tool : string)
| MsgNotFound (what : string) (p : path)
| MsgCsvEmpty
| MsgProcessing (n : nat)
| MsgRowFailed (n : nat)
| MsgMerging (n : nat) (p : path)
| MsgNoMergeTool (base : string)
| MsgMerged (p : path)
| MsgFailedToGenerate (p : path)
| MsgGenerated (p : path).

(** What a finished external process reports, and the text it left in
    its output file, if it wrote one. *)
Record completed : Type := {
  returncode : Z;
  stderr : string;
  written : option string
}.

(** The trace of a run.  A [Run] records the command line, the exit status
    ([None]: the program could not be started) and the files as the process
    left them. *)
Inductive event : Type :=
| Run (argv : list string) (status : option Z) (after : gmap path string)
| PyPdfMerge (inputs : list path) (output : path)
| Print (m : message)
| PrintErr (m : message).

Record world : Type := {
  files : gmap path string;
  log : list event
}.

(** The parts of the environment the converter does not control. *)
Record environment : Type := {
  (** [yaml.safe_load] *)
  yaml_safe_load : string -> loaded;
  (** An external program, run on the current files: [None] when it cannot
      be started.  By its contract a program writes its output file only. *)
  exec : list string -> gmap path string -> option completed;
  (** [list(csv.DictReader(f))] on the text of the file *)
  csv_rows : string -> list row;
  (** [PyPDF2.PdfMerger], when the package is installed: the merged
      document, or nothing when merging fails. *)
  pypdf2 : option (list string -> option string)
}.

(** *** State and exceptions *)

Inductive result (A : Type) : Type :=
| Ok (a : A)
| Raise (e : exn).
Arguments Ok {A} a.
Arguments Raise {A} e.

Definition M (St A : Type) : Type := St -> result A * St.

Definition ret {St A} (a : A) : M St A := fun st => (Ok a, st).

Definition raise {St A} (e : exn) : M St A := fun st => (Raise e, st).

Definition bind {St A B} (m : M St A) (k : A -> M St B) : M St B :=
  fun st =>
    match m st with
    | (Ok a, st') => k a st'
    | (Raise e, st') => (Raise e, st')
    end.

Notation "'let*' x ':=' m 'in' k" := (bind m (fun x => k))
  (at level 10, x name, m at level 100, k at level 200).

(** [if c: m] *)
Definition when {St} (c : bool) (m : M St unit) : M St unit :=
  if c then m else ret tt.

Fixpoint for_each {St A} (l : list A) (body : A -> M St unit) : M St unit :=
  match l with
  | [] => ret tt
  | x :: l' => let* _ := body x in for_each l' body
  end.

Fixpoint map_m {St A B} (f : A -> M St B) (l : list A) : M St (list B) :=
  match l with
  | [] => ret []
  | x :: l' => let* y := f x in let* ys := map_m f l' in ret (y :: ys)
  end.

(** *** Files and console *)

Definition emit (e : event) : M world unit :=
  fun w => (Ok tt, {| files := files w; log := log w ++ [e] |}).

Definition print (m : message) : M world unit := emit (Print m).
Definition print_err (m : message) : M world unit := emit (PrintErr m).

(** [open(p).read()] *)
Definition read_file (p : path) : M world string :=
  fun w =>
    match files w !! p with
    | Some c => (Ok c, w)
    | None => (Raise FileNotFoundError, w)
    end.

(** [open(p, 'w').write(c)] *)
Definition write_file (p : path) (c : string) : M world unit :=
  fun w => (Ok tt, {| files := <[p := c]> (files w); log := log w |}).

(** [p.exists()] *)
Definition path_exists (p : path) : M world bool :=
  fun w => (Ok (bool_decide (is_Some (files w !! p))), w).

(** [p.unlink()] *)
Definition unlink (p : path) : M world unit :=
  fun w =>
    match files w !! p with
    | Some _ => (Ok tt, {| files := delete p (files w); log := log w |})
    | None => (Raise FileNotFoundError, w)
    end.

(** [shutil.copy(src, dst)] *)
Definition copy (src dst : path) : M world unit :=
  fun w =>
    match files w !! src with
    | None => (Raise FileNotFoundError, w)
    | Some c =>
        if bool_decide (src = dst) then (Raise SameFileError, w)
        else write_file dst c w
    end.

(** The files after a process that may have written its output file. *)
Definition leave (target : option path) (out : option string)
    (fs : gmap path string) : gmap path string :=
  match target, out with
  | Some p, Some c => <[p := c]> fs
  | _, _ => fs
  end.
Arguments leave : simpl never.

(* ===================================================================== *)
(** ** [convert_markdown_to_pdf] and [main] *)
(* ===================================================================== *)

(** The local variables the [except] clauses look up with [locals()]. *)
Record locals : Type := {
  temp_md : option path;
  temp_template : option path
}.

Definition no_locals : locals := {| temp_md := None; temp_template := None |}.

(** The state inside the [try] block. *)
Definition frame : Type := world * locals.

Definition io {A} (m : M world A) : M frame A :=
  fun st => let '(r, w') := m (fst st) in (r, (w', snd st)).

Definition set_temp_md (p : path) : M frame unit :=
  fun st => (Ok tt, (fst st, {| temp_md := Some p; temp_template := temp_template (snd st) |})).

Definition set_temp_template (p : path) : M frame unit :=
  fun st => (Ok tt, (fst st, {| temp_md := temp_md (snd st); temp_template := Some p |})).

(** [raise ValueError] of [with_suffix] inside the monad *)
Definition with_suffix_m {St} (sfx : string) (p : path) : M St path :=
  match with_suffix sfx p with
  | Some q => ret q
  | None => raise ValueError
  end.

(** [fields.update(o)] and [fields.items()]: only a [dict] has them. *)
Definition obj_update {St} (fields : pyobj) (o : dict) : M St pyobj :=
  match fields with
  | PDict d => ret (PDict (dict_update d o))
  | PValue _ => raise AttributeError
  end.

Definition obj_items {St} (fields : pyobj) : M St dict :=
  match fields with
  | PDict d => ret d
  | PValue _ => raise AttributeError
  end.

(** [if override_fields:] *)
Definition truthy (o : option dict) : option dict :=
  match o with
  | Some (kv :: rest) => Some (kv :: rest)
  | _ => None
  end.

Definition pandoc_cmd (temp_md temp_typst : path) (bibliography csl : option path) : list string :=
  ["pandoc"; path_str temp_md; "-t"; "typst"; "-o"; path_str temp_typst]
  ++ match bibliography with
     | Some bib =>
         match csl with
         | Some c => ["--csl"; path_str c]
         | None => []
         end
         ++ ["--citeproc"; "--bibliography"; path_str bib]
     | None => []
     end.

Definition typst_cmd (temp_typst output_pdf : path) : list string :=
  ["typst"; "compile"; path_str temp_typst; path_str output_pdf].

Section Model.

Context (E : environment).

(** [subprocess.run(argv, capture_output=True, check=check)]; [target]
    is the output file named on the command line. *)
Definition subprocess_run (argv : list string) (target : option path)
    (check : bool) : M world completed :=
  fun w =>
    match exec E argv (files w) with
    | None =>
        (Raise FileNotFoundError,
         {| files := files w; log := log w ++ [Run argv None (files w)] |})
    | Some c =>
        let fs := leave target (written c) (files w) in
        let w' := {| files := fs; log := log w ++ [Run argv (Some (returncode c)) fs] |} in
        if check && negb (returncode c =? 0)%Z
        then (Raise (CalledProcessError (stderr c)), w')
        else (Ok c, w')
    end.

(** Lines 14-24. *)
Definition check_command_exists (command : string) : M world bool :=
  fun w =>
    match subprocess_run ["which"; command] None true w with
    | (Ok _, w') => (Ok true, w')
    | (Raise (CalledProcessError _), w') => (Ok false, w')
    | (Raise FileNotFoundError, w') => (Ok false, w')
    | (Raise e, w') => (Raise e, w')
    end.

(** Lines 27-47. *)
Definition parse_header_fields (markdown_file : path) : M world pyobj :=
  let* content := read_file markdown_file in
  ret (header_of (yaml_safe_load E) content).

(** [if p.exists(): p.unlink()], for a variable that may be unbound: the
    [except] clause tests ['p' in locals()] first. *)
Definition unlink_if_exists (p : option path) : M world unit :=
  match p with
  | Some q => let* e := path_exists q in when e (unlink q)
  | None => ret tt
  end.

(** Lines 74-204: the body of the [try] block. *)
Definition convert_try (markdown_file output_pdf template_file : path)
    (override_fields : option dict) (bibliography csl : option path)
    (temp_typst : path) : M frame bool :=
  let* fields := io (parse_header_fields markdown_file) in
  let* fields :=
    match truthy override_fields with
    | Some o => obj_update fields o
    | None => ret fields
    end in
  let* tmd := with_suffix_m ".temp.md" output_pdf in
  let* _ := set_temp_md tmd in
  let* content := io (read_file markdown_file) in
  let content := strip_frontmatter content in
  let* items := obj_items fields in
  let content := substitute items content in
  let* _ := io (write_file tmd content) in
  let* _ := io (print (MsgConvertingToTypst (name markdown_file))) in
  let* _ := io (subprocess_run (pandoc_cmd tmd temp_typst bibliography csl)
                  (Some temp_typst) true) in
  let* typst_body := io (read_file temp_typst) in
  let* _ := io (unlink tmd) in
  let ttpl := joinpath (parent temp_typst) (name template_file) in
  let* _ := set_temp_template ttpl in
  let* _ := io (copy template_file ttpl) in
  let* template_content := io (read_file ttpl) in
  let func := template_func template_content in
  let params_str := join NL (build_params items) in
  let* _ := io (write_file temp_typst
                  (typst_content (name ttpl) func params_str typst_body)) in
  let* _ := io (print MsgConvertingToPdf) in
  let* _ := io (subprocess_run (typst_cmd temp_typst output_pdf)
                  (Some output_pdf) true) in
  let* _ := io (unlink temp_typst) in
  let* _ := io (unlink_if_exists (Some ttpl)) in
  let* _ := io (print (MsgCreated output_pdf)) in
  ret true.

(** Lines 206-211: [except subprocess.CalledProcessError]. *)
Definition on_called_process_error (err : string) (temp_typst : path) : M world bool :=
  let* _ := print_err (MsgConversionError err) in
  let* e := path_exists temp_typst in
  let* _ := when e (print_err (MsgTempSaved temp_typst)) in
  ret false.

(** Lines 212-220: [except Exception]. *)
Definition on_exception (e : exn) (temp_typst : path) (l : locals) : M world bool :=
  let* _ := print_err (MsgError e) in
  let* _ := unlink_if_exists (Some temp_typst) in
  let* _ := unlink_if_exists (temp_template l) in
  let* _ := unlink_if_exists (temp_md l) in
  ret false.

(** Lines 50-220. *)
Definition convert_markdown_to_pdf (markdown_file output_pdf template_file : path)
    (override_fields : option dict) (bibliography csl : option path) : M world bool :=
  let* temp_typst := with_suffix_m ".typ" output_pdf in
  fun w =>
    match convert_try markdown_file output_pdf template_file override_fields
            bibliography csl temp_typst (w, no_locals) with
    | (Ok b, (w1, _)) => (Ok b, w1)
    | (Raise (CalledProcessError err), (w1, _)) =>
        on_called_process_error err temp_typst w1
    | (Raise (SystemExit c), (w1, _)) => (Raise (SystemExit c), w1)
    | (Raise e, (w1, l)) => on_exception e temp_typst l w1
    end.

(** *** The command line driver *)

(** [sys.exit(code)] *)
Definition sys_exit {A} (code : Z) : M world A := raise (SystemExit code).

(** The repeated check "[if not p.exists(): print(...); sys.exit(1)]". *)
Definition require_file (what : string) (p : path) : M world unit :=
  let* e := path_exists p in
  if e then ret tt
  else let* _ := print_err (MsgNotFound what p) in sys_exit 1.

Definition require_optional_file (what : string) (p : option path) : M world unit :=
  match p with
  | Some q => require_file what q
  | None => ret tt
  end.

Definition require_command (command : string) : M world unit :=
  let* ok := check_command_exists command in
  if ok then ret tt
  else let* _ := print_err (MsgNotInstalled command) in sys_exit 1.

Section Batch.

Variables (markdown_file output_pdf template_path : path).
Variables (bibliography_path csl_path : option path).

(** Line 342: the temporary PDF of row [i]. *)
Definition temp_pdf (i : nat) : path :=
  joinpath (parent output_pdf)
    (stem output_pdf +:+ "_temp_" +:+ str_of_nat i +:+ ".pdf").

(** Lines 341-354: the loop of merge mode, from row index [i] on. *)
Fixpoint merge_rows (i : nat) (rows : list row) (temp_pdfs : list path)
    : M world (list path) :=
  match rows with
  | [] => ret temp_pdfs
  | r :: rest =>
      let* success :=
        convert_markdown_to_pdf markdown_file (temp_pdf i) template_path
          (Some (dict_of_row r)) bibliography_path csl_path in
      if success then merge_rows (S i) rest (temp_pdfs ++ [temp_pdf i])
      else let* _ := print_err (MsgRowFailed (i + 1)) in sys_exit 1
  end.

Definition pdfunite_cmd (temp_pdfs : list path) : list string :=
  ["pdfunite"] ++ map path_str temp_pdfs ++ [path_str output_pdf].

Definition pdftk_cmd (temp_pdfs : list path) : list string :=
  ["pdftk"] ++ map path_str temp_pdfs ++ ["cat"; "output"; path_str output_pdf].

(** Lines 375-385: the PyPDF2 fallback. *)
Definition merge_with_pypdf2 (temp_pdfs : list path) : M world unit :=
  match pypdf2 E with
  | None =>
      let* _ := print_err (MsgNoMergeTool (stem output_pdf)) in sys_exit 1
  | Some merger =>
      let* _ := emit (PyPdfMerge temp_pdfs output_pdf) in
      let* contents := map_m read_file temp_pdfs in
      match merger contents with
      | Some merged => write_file output_pdf merged
      | None => raise PdfError
      end
  end.

(** Lines 358-385. *)
Definition merge_pdfs (temp_pdfs : list path) : M world unit :=
  fun w =>
    let attempt : M world unit :=
      let* result := subprocess_run (pdfunite_cmd temp_pdfs) (Some output_pdf) false in
      when (negb (returncode result =? 0)%Z)
        (let* _ := subprocess_run (pdftk_cmd temp_pdfs) (Some output_pdf) true in
         ret tt) in
    match attempt w with
    | (Raise (CalledProcessError _), w') => merge_with_pypdf2 temp_pdfs w'
    | (Raise FileNotFoundError, w') => merge_with_pypdf2 temp_pdfs w'
    | other => other
    end.

(** Lines 338-391. *)
Definition merge_mode (rows : list row) : M world unit :=
  let* temp_pdfs := merge_rows 0 rows [] in
  let* _ := print (MsgMerging (length temp_pdfs) output_pdf) in
  let* _ := merge_pdfs temp_pdfs in
  let* _ := for_each temp_pdfs unlink in
  print (MsgMerged output_pdf).

(** Lines 399-403: the output file of row [i]. *)
Definition safe_name (recipient : string) : string :=
  replace "/" "_" (replace " " "_" recipient).

Definition row_output_name (base_name : string) (i : nat) (r : row) : result string :=
  match row_get "recipient" r with
  | Some (Some recipient) => Ok (base_name +:+ "_" +:+ safe_name recipient +:+ ".pdf")
  | Some None => Raise AttributeError
  | None => Ok (base_name +:+ "_" +:+ str_of_nat (i + 1) +:+ ".pdf")
  end.

Definition row_output (i : nat) (r : row) : M world path :=
  match row_output_name (stem output_pdf) i r with
  | Ok nm => ret (joinpath (parent output_pdf) nm)
  | Raise e => raise e
  end.

(** Lines 397-416: the loop of per-row mode, from row index [i] on. *)
Fixpoint each_row (i : nat) (rows : list row) : M world unit :=
  match rows with
  | [] => ret tt
  | r :: rest =>
      let* out := row_output i r in
      let* success :=
        convert_markdown_to_pdf markdown_file out template_path
          (Some (dict_of_row r)) bibliography_path csl_path in
      let* _ :=
        if negb success then print_err (MsgFailedToGenerate out)
        else print (MsgGenerated out) in
      each_row (S i) rest
  end.

(** Lines 321-418. *)
Definition mail_merge (csv_path : path) (merge_output : bool) : M world unit :=
  let* _ := require_file "CSV" csv_path in
  let* text := read_file csv_path in
  let rows := csv_rows E text in
  match rows with
  | [] => let* _ := print_err MsgCsvEmpty in sys_exit 1
  | _ :: _ =>
      let* _ := print (MsgProcessing (length rows)) in
      let* _ := if merge_output then merge_mode rows else each_row 0 rows in
      sys_exit 0
  end.

End Batch.

(** The parsed command line. *)
Record args : Type := {
  arg_markdown_file : path;
  arg_output : option path;
  arg_template : path;
  arg_bibliography : option path;
  arg_csl : option path;
  arg_csv : option path;
  arg_merge_output : bool
}.

(** Lines 266-439: [main] once [parser.parse_args()] has accepted the
    command line ([argparse] itself exits with status 2 on a command line
    it rejects, before any of this); [a] holds the parsed arguments, its
    paths as [main] hands them on. *)
Definition main (a : args) : M world unit :=
  let* _ := require_command "typst" in
  let* _ := require_command "pandoc" in
  let markdown_file := arg_markdown_file a in
  let* _ := require_file "Markdown" markdown_file in
  let* output_pdf :=
    match arg_output a with
    | Some o => ret o
    | None => with_suffix_m ".pdf" markdown_file
    end in
  let template_path := arg_template a in
  let* _ := require_file "Template" template_path in
  let* _ := require_optional_file "Bibliography" (arg_bibliography a) in
  let* _ := require_optional_file "CSL" (arg_csl a) in
  match arg_csv a with
  | Some csv_path =>
      mail_merge markdown_file output_pdf template_path
        (arg_bibliography a) (arg_csl a) csv_path (arg_merge_output a)
  | None =>
      let* _ := require_optional_file "CSL" (arg_csl a) in
      let* success :=
        convert_markdown_to_pdf markdown_file output_pdf template_path None
          (arg_bibliography a) (arg_csl a) in
      sys_exit (if success then 0 else 1)
  end.

End Model.

(** The exit status of the process: that of [sys.exit], or 1 after an
    uncaught exception. *)
Definition exit_status {A} (r : result A) : Z :=
  match r with
  | Raise (SystemExit code) => code
  | Raise _ => 1
  | Ok _ => 0
  end.

(* ===================================================================== *)
(** ** Reading the trace *)
(* ===================================================================== *)

(** What a run from [w] to [w'] added to the trace. *)
Definition events_since (w w' : world) : list event :=
  skipn (length (log w)) (log w').

(** An external program that ran and exited with a non-zero status. *)
Definition failed_run (e : event) : bool :=
  match e with
  | Run _ (Some rc) _ => negb (rc =? 0)%Z
  | _ => false
  end.

(** An attempt to merge PDFs, by any of the three providers. *)
Definition is_merge_event (e : event) : bool :=
  match e with
  | Run (prog :: _) _ _ => String.eqb prog "pdfunite" || String.eqb prog "pdftk"
  | PyPdfMerge _ _ => true
  | _ => false
  end.

(** What one conversion may add to the trace. *)
Definition convert_event (e : event) : bool :=
  match e with
  | Run (prog :: _) _ _ => String.eqb prog "pandoc" || String.eqb prog "typst"
  | Print (MsgConvertingToTypst _) => true
  | Print MsgConvertingToPdf => true
  | Print (MsgCreated _) => true
  | PrintErr (MsgConversionError _) => true
  | PrintErr (MsgTempSaved _) => true
  | PrintErr (MsgError _) => true
  | _ => false
  end.

(** The per-row reports of the batch driver: the output path, and whether
    the row was generated. *)
Definition row_report (e : event) : option (path * bool) :=
  match e with
  | PrintErr (MsgFailedToGenerate p) => Some (p, false)
  | Print (MsgGenerated p) => Some (p, true)
  | _ => None
  end.

Definition row_reports (evs : list event) : list (path * bool) :=
  omap row_report evs.

(** The intermediate artifacts of one conversion: the substituted
    Markdown, the Typst markup and the copy of the template. *)
Definition artifacts (output_pdf template_file : path) : list path :=
  match with_suffix ".temp.md" output_pdf, with_suffix ".typ" output_pdf with
  | Some tmd, Some ttyp => [tmd; ttyp; joinpath (parent ttyp) (name template_file)]
  | _, _ => []
  end.

(** The recipient cell of a row, when the row has the column, is a text. *)
Definition recipient_is_text (r : row) : bool :=
  match row_get "recipient" r with
  | Some None => false
  | _ => true
  end.

(** The output files per-row mode is to write, in row order. *)
Fixpoint row_outputs (output_pdf : path) (i : nat) (rows : list row) : list path :=
  match rows with
  | [] => []
  | r :: rest =>
      match row_output_name (stem output_pdf) i r with
      | Ok nm => joinpath (parent output_pdf) nm :: row_outputs output_pdf (S i) rest
      | Raise _ => []
      end
  end.

(** The world once the batch driver has announced the rows. *)
Definition announced (w : world) (rows : list row) : world :=
  {| files := files w; log := log w ++ [Print (MsgProcessing (length rows))] |}.

(** A hypothesis set aside while others are worked on. *)
Definition postponed (P : Prop) : Prop := P.

(* ===================================================================== *)
(** ** Further notions used to state properties *)
(* ===================================================================== *)

(** Reading a quoted literal back: a backslash gives the character after
    it its plain meaning, [n] standing for a newline. *)
Fixpoint unescape (s : string) : string :=
  match s with
  | "" => ""
  | String c s' =>
      if Ascii.eqb c "\" then
        match s' with
        | "" => String c ""
        | String d s'' =>
            String (if Ascii.eqb d "n" then ascii_of_nat 10 else d) (unescape s'')
        end
      else String c (unescape s')
  end.

Definition is_str (v : value) : bool :=
  match v with
  | VStr _ => true
  | _ => false
  end.

(** [d.get(k)] *)
Fixpoint dict_get (k : string) (d : dict) : option value :=
  match d with
  | [] => None
  | (k', v) :: d' => if String.eqb k k' then Some v else dict_get k d'
  end.

(** The keys of a [dict], in order. *)
Definition keys (d : dict) : list string := map fst d.

(** Is [command] found by [which] on the files [fs]? *)
Definition has_tool (E : environment) (command : string) (fs : gmap path string) : bool :=
  match exec E ["which"; command] fs with
  | Some c => (returncode c =? 0)%Z
  | None => false
  end.

Definition file_exists (fs : gmap path string) (p : path) : bool :=
  bool_decide (is_Some (fs !! p)).

Definition optional_file_exists (fs : gmap path string) (p : option path) : bool :=
  match p with
  | Some q => file_exists fs q
  | None => true
  end.

(** What [main] checks before it converts anything: the two programs, and
    every file named on the command line. *)
Definition prerequisites (E : environment) (a : args) (fs : gmap path string) : bool :=
  has_tool E "typst" fs && has_tool E "pandoc" fs
  && file_exists fs (arg_markdown_file a)
  && file_exists fs (arg_template a)
  && optional_file_exists fs (arg_bibliography a)
  && optional_file_exists fs (arg_csl a)
  && optional_file_exists fs (arg_csv a).

(** An event of the checks: a message, or a run of [which]. *)
Definition check_event (e : event) : bool :=
  match e with
  | Run (prog :: _) _ _ => String.eqb prog "which"
  | Run [] _ _ => false
  | PyPdfMerge _ _ => false
  | Print _ => true
  | PrintErr _ => true
  end.

(** An exit that is not [sys.exit] with a status other than 0 and 1. *)
Definition tame {A} (r : result A) : Prop :=
  match r with
  | Raise (SystemExit code) => code = 0%Z \/ code = 1%Z
  | _ => True
  end.

(** Lines 291-294: the output path of the command line. *)
Definition output_of (a : args) : option path :=
  match arg_output a with
  | Some o => Some o
  | None => with_suffix ".pdf" (arg_markdown_file a)
  end.

(** The world after the two successful tool checks of [main]. *)
Definition checked (w : world) : world :=
  {| files := files w;
     log := log w ++ [Run ["which"; "typst"] (Some 0%Z) (files w);
                      Run ["which"; "pandoc"] (Some 0%Z) (files w)] |}.

(** Events can be compared, so that a trace can be searched. *)
#[global] Instance exn_eq_dec : EqDecision exn.
Proof. solve_decision. Defined.

#[global] Instance message_eq_dec : EqDecision message.
Proof. solve_decision. Defined.

#[global] Instance event_eq_dec : EqDecision event.
Proof. solve_decision. Defined.

(** Lines 413-416: what per-row mode prints after the conversion of a row. *)
Definition row_report_event (o : path) (success : bool) : event :=
  if success then Print (MsgGenerated o) else PrintErr (MsgFailedToGenerate o).

(* ===================================================================== *)
(** ** Sample inputs *)
(* ===================================================================== *)

Module Sample.

(** [yaml.safe_load] on the documents used below, as a table.  Any other
    document is answered with a YAML error; nothing below depends on it. *)
Definition yaml (doc : string) : loaded :=
  if String.eqb doc "title: Test" then LoadedDict [("title", VStr "Test")]
  else if String.eqb doc "" then LoadedNone
  else if String.eqb doc "# draft" then LoadedNone
  else if String.eqb doc "just text" then LoadedOther (VStr "just text")
  else YAMLError.

(** A header without key-value data, and a header that is never closed. *)
Definition comment_only : string :=
  header_line +:+ "# draft" +:+ NL +:+ "---" +:+ NL +:+ "Body".

Definition unclosed : string := header_line +:+ "title: Test" +:+ NL.

(** A field as a YAML block scalar gives it: the text ends with a newline. *)
Definition abstract : string := "First line" +:+ NL +:+ "Second line" +:+ NL.

(** A template that declares a helper before its entry point. *)
Definition template_with_helper : string :=
  "#let helper(x) = x" +:+ NL +:+ "#let letter(body) = body".

Definition template_with_settings : string :=
  "#let margin = 2cm" +:+ NL +:+ "#let letter(body) = body".

Definition template_without_function : string := "#set page(width: 10cm)".

(** A small project on disk. *)
Definition md : path := ("docs", "letter.md").
Definition tpl : path := ("templates", "letter.typ").
Definition out : path := ("out", "letter.pdf").
Definition csv : path := ("docs", "people.csv").

Definition letter : string :=
  header_line +:+ "title: Test" +:+ NL +:+ "---" +:+ NL +:+ "Hello {{title}}".

Definition disk : gmap path string :=
  <[md := letter]> (<[tpl := template_with_settings]> (<[csv := "people"]> ∅)).

Definition start : world := {| files := disk; log := [] |}.

Definition ann : row := [("recipient", Some "Ann Lee")].
Definition bob : row := [("recipient", Some "Bob")].
Definition cy : row := [("recipient", Some "Cy")].

Definition people : list row := [ann; bob; cy].

(** External programs: all present; [pandoc] exits with status 1, leaving
    partial markup behind, when the name of its input contains [bad], and
    every other run succeeds. *)
Definition tools (bad : option string) (argv : list string)
    (fs : gmap path string) : option completed :=
  match argv with
  | "which" :: _ => Some {| returncode := 0; stderr := ""; written := None |}
  | "pandoc" :: input :: _ =>
      if match bad with Some b => contains b input | None => false end
      then Some {| returncode := 1; stderr := "pandoc: error"; written := Some "= Part" |}
      else Some {| returncode := 0; stderr := ""; written := Some "Hello Test" |}
  | "typst" :: _ => Some {| returncode := 0; stderr := ""; written := Some "%PDF" |}
  | "pdfunite" :: _ => Some {| returncode := 0; stderr := ""; written := Some "%PDF merged" |}
  | _ => None
  end.

Definition env (bad : option string) : environment :=
  {| yaml_safe_load := yaml;
     exec := tools bad;
     csv_rows := fun text => if String.eqb text "people" then people else [];
     pypdf2 := None |}.

(** One conversion with working tools, and one in which [pandoc] fails. *)
Definition run_ok : result bool * world :=
  convert_markdown_to_pdf (env None) md out tpl None None None start.

Definition run_pandoc_fails : result bool * world :=
  convert_markdown_to_pdf (env (Some "letter")) md out tpl None None None start.

Definition temp_md_path : path := ("out", "letter.temp.md").
Definition temp_typst_path : path := ("out", "letter.typ").

(** The files as the failing [pandoc] leaves them. *)
Definition after_pandoc : gmap path string :=
  <[temp_typst_path := "= Part"]> (<[temp_md_path := "Hello Test"]> disk).

(** Merge mode in which [pandoc] fails on the second row: the world
    before that row, and after its conversion. *)
Definition before_bob : world :=
  snd (merge_rows (env (Some "_temp_1")) md out tpl None None 0 [ann] []
         (announced start people)).

Definition after_bob : world :=
  snd (convert_markdown_to_pdf (env (Some "_temp_1")) md (temp_pdf out 1) tpl
         (Some (dict_of_row bob)) None None before_bob).

Definition merge_run : result unit * world :=
  mail_merge (env (Some "_temp_1")) md out tpl None None csv true start.

(** Per-row mode in which [pandoc] fails on the row of Bob. *)
Definition per_row_run : result unit * world :=
  mail_merge (env (Some "Bob")) md out tpl None None csv false start.

End Sample.

(* ===================================================================== *)
(** ** Further sample inputs *)
(* ===================================================================== *)

Module Cases.

(** A note whose header is a plain scalar, a template that lies in the
    output directory, and a CSV file without rows. *)
Definition note : path := ("docs", "note.md").

Definition scalar_header : string :=
  header_line +:+ "just text" +:+ NL +:+ "---" +:+ NL +:+ "Body".

Definition local_tpl : path := ("out", "style.typ").

Definition blank : path := ("docs", "blank.csv").

Definition disk : gmap path string :=
  <[note := scalar_header]>
    (<[local_tpl := Sample.template_with_settings]>
       (<[blank := "none"]> Sample.disk)).

Definition start : world := {| files := disk; log := [] |}.

(** An output whose markup file is not named like the template. *)
Definition report : path := ("out", "report.pdf").
Definition report_md : path := ("out", "report.temp.md").
Definition report_typ : path := ("out", "report.typ").

Definition run_report : result bool * world :=
  convert_markdown_to_pdf (Sample.env None) Sample.md report Sample.tpl
    None None None Sample.start.

Definition parameters : string := "  title: " +:+ DQ +:+ "Test" +:+ DQ +:+ ",".

(** The files as [pandoc] and [typst] leave them in the two runs. *)
Definition pandoc_done : gmap path string :=
  <[Sample.temp_typst_path := "Hello Test"]>
    (<[Sample.temp_md_path := "Hello Test"]> Sample.disk).

Definition typst_done : gmap path string :=
  <[Sample.out := "%PDF"]>
    (<[Sample.temp_typst_path :=
         typst_content "letter.typ" "letter" parameters "Hello Test"]> Sample.disk).

Definition report_typst_done : gmap path string :=
  <[report := "%PDF"]>
    (<[report_typ := typst_content "letter.typ" "letter" parameters "Hello Test"]>
       (<[("out", "letter.typ") := Sample.template_with_settings]> Sample.disk)).

(** Command lines: one document, one document with a bibliography that
    does not exist, and a batch. *)
Definition single : args :=
  {| arg_markdown_file := Sample.md; arg_output := None;
     arg_template := Sample.tpl; arg_bibliography := None; arg_csl := None;
     arg_csv := None; arg_merge_output := false |}.

Definition missing_bibliography : args :=
  {| arg_markdown_file := Sample.md; arg_output := None;
     arg_template := Sample.tpl; arg_bibliography := Some ("docs", "refs.bib");
     arg_csl := None; arg_csv := None; arg_merge_output := false |}.

Definition batch : args :=
  {| arg_markdown_file := Sample.md; arg_output := Some Sample.out;
     arg_template := Sample.tpl; arg_bibliography := None; arg_csl := None;
     arg_csv := Some Sample.csv; arg_merge_output := true |}.

(** A merge of two row files, and merge mode on the sample rows. *)
Definition row_pdfs : list path := [temp_pdf Sample.out 0; temp_pdf Sample.out 1].

Definition merge_two : result unit * world :=
  merge_pdfs (Sample.env None) Sample.out row_pdfs Sample.start.

Definition merge_all : result unit * world :=
  merge_mode (Sample.env None) Sample.md Sample.out Sample.tpl None None
    Sample.people Sample.start.

(** A CSV file with the columns [city] and [recipient] whose second row
    is short: [csv.DictReader] fills its missing cell with [None].
    [pandoc] fails on the row of Bob. *)
Definition paris : row := [("city", Some "Paris"); ("recipient", Some "Bob")].
Definition rome : row := [("city", Some "Rome"); ("recipient", None)].
Definition oslo : row := [("city", Some "Oslo"); ("recipient", Some "Cy")].

Definition env_short_row : environment :=
  {| yaml_safe_load := Sample.yaml;
     exec := Sample.tools (Some "Bob");
     csv_rows := fun text => if String.eqb text "people" then [paris; rome; oslo] else [];
     pypdf2 := None |}.

Definition short_row_run : result unit * world :=
  mail_merge env_short_row Sample.md Sample.out Sample.tpl None None
    Sample.csv false Sample.start.

End Cases.

(* ===================================================================== *)
(** ** Facts about the string primitives *)
(* ===================================================================== *)

Section StringFacts.

Lemma append_cons (c : ascii) (s t : string) :
  String c s +:+ t = String c (s +:+ t).
Proof. reflexivity. Qed.

Lemma append_nil_l (s : string) : "" +:+ s = s.
Proof. reflexivity. Qed.

Lemma append_nil_r (s : string) : s +:+ "" = s.
Proof.
  induction s as [|c s IH]; [reflexivity |].
  now rewrite append_cons, IH.
Qed.

Lemma append_assoc (a b c : string) : (a +:+ b) +:+ c = a +:+ (b +:+ c).
Proof.
  induction a as [|x a IH]; [reflexivity |].
  now rewrite !append_cons, IH.
Qed.

Lemma startswith_split (p s : string) :
  startswith p s = true -> exists r, s = p +:+ r.
Proof.
  revert s; induction p as [|c p IH]; intros s H.
  - exists s; reflexivity.
  - destruct s as [|d s]; simpl in H; [discriminate |].
    apply andb_true_iff in H as [Hc Hp].
    apply Ascii.eqb_eq in Hc; subst d.
    destruct (IH _ Hp) as [r ->]. exists r; reflexivity.
Qed.

Lemma cut_startswith (sep s : string) :
  startswith sep s = true ->
  cut sep s = Some ("", slice_from (String.length sep) s).
Proof. intros H. destruct s; cbn [cut]; rewrite H; reflexivity. Qed.

Lemma contains_cons (p : string) (c : ascii) (s : string) :
  contains p (String c s) = false ->
  startswith p (String c s) = false /\ contains p s = false.
Proof. cbn [contains]; intros H; now apply orb_false_iff in H. Qed.

Lemma has_char_append (a : ascii) (s t : string) :
  has_char a (s +:+ t) = has_char a s || has_char a t.
Proof.
  induction s as [|c s IH]; [reflexivity |].
  rewrite append_cons; simpl. now rewrite IH, orb_assoc.
Qed.

(** Replacing a text that does not occur changes nothing. *)
Lemma replace_from_absent (old new s : string) :
  contains old s = false -> replace_from old new 0 s = s.
Proof.
  induction s as [|c s IH]; intros H; [reflexivity |].
  apply contains_cons in H as [Hs Hc].
  cbn [replace_from]. rewrite Hs, (IH Hc). reflexivity.
Qed.

Lemma replace_absent (o : ascii) (old new s : string) :
  contains (String o old) s = false -> replace (String o old) new s = s.
Proof. apply replace_from_absent. Qed.

(** Replacing one character works character by character. *)
Lemma replace_char_cons (a c : ascii) (new s : string) :
  replace (String a "") new (String c s) =
  if Ascii.eqb a c then new +:+ replace (String a "") new s
  else String c (replace (String a "") new s).
Proof.
  unfold replace; cbn [replace_from startswith String.length Nat.sub].
  destruct (Ascii.eqb a c); reflexivity.
Qed.

Lemma has_char_replace_same (a : ascii) (new s : string) :
  has_char a new = false -> has_char a (replace (String a "") new s) = false.
Proof.
  intros Hn; induction s as [|c s IH]; [reflexivity |].
  rewrite replace_char_cons.
  destruct (Ascii.eqb a c) eqn:Hac.
  - now rewrite has_char_append, Hn, IH.
  - cbn [has_char]. now rewrite Hac, IH.
Qed.

Lemma has_char_replace_other (a b : ascii) (new s : string) :
  has_char b new = false ->
  has_char b s = false -> has_char b (replace (String a "") new s) = false.
Proof.
  intros Hn; induction s as [|c s IH]; intros Hs; [reflexivity |].
  cbn [has_char] in Hs. apply orb_false_iff in Hs as [Hbc Hs].
  rewrite replace_char_cons.
  destruct (Ascii.eqb a c).
  - now rewrite has_char_append, Hn, IH.
  - cbn [has_char]. now rewrite Hbc, IH.
Qed.

(** What [lstrip], [rstrip] and [strip] remove is white space at the two
    ends, and nothing else. *)
Lemma lstrip_split (s : string) :
  exists lead, s = lead +:+ lstrip s /\ all_space lead = true.
Proof.
  induction s as [|c s [lead [Hs Hl]]].
  - exists ""; split; reflexivity.
  - cbn [lstrip]. destruct (isspace c) eqn:Hc.
    + exists (String c lead). rewrite append_cons, <- Hs.
      cbn [all_space]. rewrite Hc, Hl. split; reflexivity.
    + exists ""; split; reflexivity.
Qed.

Lemma rstrip_split (s : string) :
  exists trail, s = rstrip s +:+ trail /\ all_space trail = true.
Proof.
  induction s as [|c s [trail [Hs Ht]]].
  - exists ""; split; reflexivity.
  - cbn [rstrip]. destruct (rstrip s) as [|d r] eqn:Hr.
    + rewrite append_nil_l in Hs. destruct (isspace c) eqn:Hc.
      * exists (String c trail). split.
        -- now rewrite append_nil_l, Hs.
        -- cbn [all_space]. now rewrite Hc, Ht.
      * exists trail. split; [| assumption].
        now rewrite append_cons, append_nil_l, Hs.
    + exists trail. split; [| assumption].
      rewrite append_cons, <- Hs. reflexivity.
Qed.

Lemma strip_split (s : string) :
  exists lead trail,
    s = lead +:+ strip s +:+ trail /\
    all_space lead = true /\ all_space trail = true.
Proof.
  destruct (rstrip_split s) as [trail [Hs Ht]].
  destruct (lstrip_split (rstrip s)) as [lead [Hr Hl]].
  exists lead, trail. unfold strip. split; [| split; assumption].
  rewrite <- append_assoc, <- Hr. exact Hs.
Qed.

End StringFacts.


(* ===================================================================== *)
(** ** Header field extraction *)
(* ===================================================================== *)

Section HeaderFields.

Variable load : string -> loaded.

(** A text that opens a header always splits into two parts or more. *)
Lemma split2_header (content : string) :
  startswith header_line content = true ->
  exists inner rest,
    split2 "---" content = "" :: inner :: rest /\ (length rest <= 1)%nat.
Proof.
  intros H.
  assert (H3 : startswith "---" content = true).
  { apply startswith_split in H as [r ->]. reflexivity. }
  unfold split2. rewrite (cut_startswith _ _ H3).
  destruct (cut "---" _) as [[b c]|].
  - exists b, [c]. split; [reflexivity | simpl; lia].
  - eexists _, []. split; [reflexivity | simpl; lia].
Qed.

(** No header delimiter: an empty mapping. *)
Lemma header_of_without_delimiter (content : string) :
  startswith header_line content = false -> header_of load content = PDict [].
Proof. intros H. unfold header_of. now rewrite H. Qed.

(** The loader rejects the header: an empty mapping. *)
Lemma header_of_yaml_error (content : string) :
  load (strip (nth 1 (split2 "---" content) "")) = YAMLError ->
  header_of load content = PDict [].
Proof.
  intros H. unfold header_of.
  destruct (startswith header_line content); [| reflexivity].
  destruct (2 <=? length (split2 "---" content))%nat; [| reflexivity].
  now rewrite H.
Qed.

(** The test on the number of parts never fails once the text opens a
    header. *)
Lemma header_of_delimited (content : string) :
  startswith header_line content = true ->
  header_of load content =
  match load (strip (nth 1 (split2 "---" content) "")) with
  | LoadedDict fields => PDict fields
  | LoadedOther v => PValue v
  | _ => PDict []
  end.
Proof.
  intros H. unfold header_of. rewrite H.
  destruct (split2_header _ H) as (inner & rest & -> & _).
  cbn [length Nat.leb nth].
  destruct (load (strip inner)); reflexivity.
Qed.

(** C10. When the header block is well-formed YAML without any key-value
    data, so that the loader returns no value, [parse_header_fields]
    returns the empty mapping, neither [None] nor an error, and iterating
    over its items is defined (and yields nothing). *)
Theorem C10_empty_header_gives_empty_mapping (content : string) :
  startswith header_line content = true ->
  load (strip (nth 1 (split2 "---" content) "")) = LoadedNone ->
  header_of load content = PDict []
  /\ forall (St : Type) (st : St),
       obj_items (header_of load content) st = (Ok [], st).
Proof.
  intros Hd Hl. rewrite (header_of_delimited _ Hd), Hl.
  split; [reflexivity | intros; reflexivity].
Qed.

End HeaderFields.

Lemma C10_witness :
  startswith header_line Sample.comment_only = true
  /\ Sample.yaml (strip (nth 1 (split2 "---" Sample.comment_only) "")) = LoadedNone
  /\ header_of Sample.yaml Sample.comment_only = PDict [].
Proof.
  split; [reflexivity | split; [reflexivity |]].
  apply (C10_empty_header_gives_empty_mapping Sample.yaml Sample.comment_only);
    reflexivity.
Defined.

(** C1 (code defect).  A text that opens a header and never closes it
    splits into two parts only, yet [parse_header_fields] parses the rest
    of the file as the header and returns its fields: the guard
    [len(parts) >= 2] always holds, where the front matter removal of
    [convert_markdown_to_pdf] asks for three parts. *)
Theorem C1_unclosed_header_is_parsed :
  length (split2 "---" Sample.unclosed) = 2
  /\ header_of Sample.yaml Sample.unclosed = PDict [("title", VStr "Test")]
  /\ strip_frontmatter Sample.unclosed = Sample.unclosed.
Proof. repeat split. Qed.

(* ===================================================================== *)
(** ** Template parameters *)
(* ===================================================================== *)

Lemma build_params_In (fields : dict) (key : string) (v : value) :
  In (key, v) fields -> key <> "template" ->
  In (format_param (normalize_key key) v) (build_params fields).
Proof.
  intros Hin Hk. induction fields as [|[k w] rest IH]; [contradiction |].
  cbn [build_params]. destruct Hin as [Heq | Hin].
  - injection Heq as -> ->.
    destruct (String.eqb key "template") eqn:E.
    + apply String.eqb_eq in E. contradiction.
    + left; reflexivity.
  - destruct (String.eqb k "template"); [| right]; now apply IH.
Qed.

(** C2, as stated, fails: the text of a block scalar ends with a newline,
    it is long by the newline test, and the block emitted for it has lost
    that newline. *)
Lemma C2_counterexample :
  contains NL Sample.abstract = true
  /\ ~ In (bracketed "abstract" Sample.abstract)
         (build_params [("abstract", VStr Sample.abstract)]).
Proof.
  split; [reflexivity |].
  intros [H | []]. discriminate H.
Qed.

(** C2, amended.  For every field other than the reserved [template] key
    whose value is a string longer than 100 characters or containing a
    newline, the serializer emits a bracketed block whose content is the
    value with the white space at its two ends stripped: what lies between
    is used as it is, newlines kept and nothing escaped. *)
Theorem C2_long_string_is_bracketed (fields : dict) (key v : string) :
  In (key, VStr v) fields ->
  key <> "template" ->
  (100 < String.length v)%nat \/ contains NL v = true ->
  In (bracketed (normalize_key key) (strip v)) (build_params fields)
  /\ exists lead trail,
       v = lead +:+ strip v +:+ trail
       /\ all_space lead = true /\ all_space trail = true.
Proof.
  intros Hin Hk Hlong. split; [| apply strip_split].
  assert (Hl : is_long v = true).
  { unfold is_long. destruct Hlong as [H | H].
    - apply Nat.ltb_lt in H. rewrite H. apply orb_true_r.
    - now rewrite H. }
  pose proof (build_params_In _ _ _ Hin Hk) as H.
  cbn [format_param] in H. now rewrite Hl in H.
Qed.

Lemma C2_witness :
  In ("abstract", VStr Sample.abstract)
     [("title", VStr "Test"); ("abstract", VStr Sample.abstract)]
  /\ "abstract" <> "template"
  /\ contains NL Sample.abstract = true
  /\ In (bracketed "abstract" ("First line" +:+ NL +:+ "Second line"))
        (build_params [("title", VStr "Test"); ("abstract", VStr Sample.abstract)]).
Proof.
  assert (Hin : In ("abstract", VStr Sample.abstract)
                  [("title", VStr "Test"); ("abstract", VStr Sample.abstract)])
    by (right; left; reflexivity).
  assert (Hk : "abstract" <> "template") by discriminate.
  assert (Hnl : contains NL Sample.abstract = true) by reflexivity.
  split; [exact Hin | split; [exact Hk | split; [exact Hnl |]]].
  exact (proj1 (C2_long_string_is_bracketed _ _ _ Hin Hk (or_intror Hnl))).
Defined.

(* ===================================================================== *)
(** ** Placeholder substitution *)
(* ===================================================================== *)




(** *** One pass creates no new placeholder *)













(** Values without braces contain no text of the shape [{{...}}]: the
    condition of C7 as stated follows from [apart]. *)
Lemma brace_free_no_cut (v : string) :
  has_char "{" v = false -> cut "{{" v = None.
Proof.
  induction v as [|c v IH]; intros H; [reflexivity |].
  cbn [has_char] in H. apply orb_false_iff in H as [Hc Hv].
  cbn [cut startswith]. rewrite Hc. cbn [andb]. now rewrite (IH Hv).
Qed.

Lemma apart_shape_free (fields : dict) :
  apart fields = true -> shape_free fields = true.
Proof.
  unfold apart, shape_free. rewrite !forallb_forall. intros H kv Hin.
  specialize (H kv Hin). destruct (snd kv) as [v | | | | |]; try reflexivity.
  apply andb_true_iff in H as [Hb _]. unfold brace_free in Hb.
  apply andb_true_iff in Hb as [Hb _]. apply negb_true_iff in Hb.
  unfold placeholder_shaped. now rewrite (brace_free_no_cut _ Hb).
Qed.

(** The two conditions of [apart] are both needed beside the one of C7
    as stated: a value that occurs within its field's name, and a value
    with a single brace, each join the braces of the body into a new
    placeholder. *)
Example substitute_value_within_name :
  shape_free [("a", VStr "a")] = true
  /\ substitute [("a", VStr "a")] "{{{{a}}}}" = "{{a}}"
  /\ substitute [("a", VStr "a")] (substitute [("a", VStr "a")] "{{{{a}}}}") = "a".
Proof. repeat split. Qed.

Example substitute_value_with_brace :
  shape_free [("a", VStr "{")] = true
  /\ substitute [("a", VStr "{")] "{{a}}{a}}" = "{{a}}"
  /\ substitute [("a", VStr "{")] (substitute [("a", VStr "{")] "{{a}}{a}}") = "{".
Proof. repeat split. Qed.



(* ===================================================================== *)
(** ** Entry-point detection *)
(* ===================================================================== *)

(** The search skips a prefix in which the pattern matches nowhere. *)
Lemma re_search_decl_skip (pre tail : string) :
  declares_before (String.length pre) (pre +:+ tail) = false ->
  re_search_decl (pre +:+ tail) = re_search_decl tail.
Proof.
  induction pre as [|c pre IH]; intros H; [reflexivity |].
  rewrite append_cons in *. cbn [String.length declares_before] in H.
  cbn [re_search_decl].
  destruct (match_decl (String c (pre +:+ tail))); [discriminate |].
  exact (IH H).
Qed.

Lemma re_search_decl_none (n : nat) (t : string) :
  (String.length t < n)%nat ->
  declares_before n t = false -> re_search_decl t = None.
Proof.
  revert t; induction n as [|n IH]; intros t Hn H; [lia |].
  cbn [declares_before] in H.
  destruct t as [|c t]; cbn [re_search_decl];
    destruct (match_decl _); try discriminate; [reflexivity |].
  apply IH; [simpl in Hn; lia | exact H].
Qed.

Lemma re_search_decl_here (s nm : string) :
  match_decl s = Some nm -> re_search_decl s = Some nm.
Proof. intros H. destruct s; cbn [re_search_decl]; now rewrite H. Qed.

Lemma match_decl_letter (rest : string) :
  match_decl ("#let letter(" +:+ rest) = Some "letter".
Proof. reflexivity. Qed.

(** C8, as stated, fails: the search returns the first declaration of the
    template, and a template may declare a helper function before its
    entry point. *)
Lemma C8_counterexample :
  contains "#let letter(" Sample.template_with_helper = true
  /\ template_func Sample.template_with_helper = "helper"
  /\ template_func Sample.template_with_helper <> "letter".
Proof. repeat split. discriminate. Qed.

(** C8, amended.  Entry-point detection returns the name of the leftmost
    match of the declaration pattern: a template in which [#let letter(]
    is the first text matching the pattern yields [letter], and a template
    in which the pattern matches nowhere yields the fallback [report]. *)
Theorem C8_template_func_first_declaration :
  (forall pre rest : string,
     declares_before (String.length pre) (pre +:+ "#let letter(" +:+ rest) = false ->
     template_func (pre +:+ "#let letter(" +:+ rest) = "letter")
  /\ (forall t : string, declares t = false -> template_func t = "report").
Proof.
  split.
  - intros pre rest H. unfold template_func.
    rewrite (re_search_decl_skip _ _ H).
    now rewrite (re_search_decl_here _ _ (match_decl_letter rest)).
  - intros t H. unfold template_func.
    rewrite (re_search_decl_none (S (String.length t)) t); [reflexivity | lia | exact H].
Qed.

Lemma C8_witness :
  (declares_before (String.length ("#let margin = 2cm" +:+ NL))
     (("#let margin = 2cm" +:+ NL) +:+ "#let letter(" +:+ "body) = body") = false
   /\ template_func Sample.template_with_settings = "letter")
  /\ (declares Sample.template_without_function = false
      /\ template_func Sample.template_without_function = "report").
Proof.
  split; (split; [reflexivity |]).
  - apply (proj1 C8_template_func_first_declaration
             ("#let margin = 2cm" +:+ NL) "body) = body").
    reflexivity.
  - apply (proj2 C8_template_func_first_declaration Sample.template_without_function).
    reflexivity.
Defined.

(* ===================================================================== *)
(** ** Row output names *)
(* ===================================================================== *)

Lemma safe_name_no_space (v : string) : has_char " " (safe_name v) = false.
Proof.
  unfold safe_name.
  apply has_char_replace_other; [reflexivity |].
  apply has_char_replace_same. reflexivity.
Qed.

Lemma safe_name_no_slash (v : string) : has_char "/" (safe_name v) = false.
Proof. unfold safe_name. apply has_char_replace_same. reflexivity. Qed.

(** C9, as stated, fails: the file name starts with the stem of the output
    path, which is used as it is. *)
Lemma C9_counterexample :
  row_get "recipient" [("recipient", Some "Bob")] = Some (Some "Bob")
  /\ row_output_name "my report" 0 [("recipient", Some "Bob")] = Ok "my report_Bob.pdf"
  /\ has_char " " "my report_Bob.pdf" = true.
Proof. repeat split. Qed.

(** C9, amended.  In per-row mode, a row whose recipient field holds a
    text is written to [<base>_<safe>.pdf], where [<base>] is the stem of
    the output path, unchanged, and [<safe>] is the recipient with every
    space and every [/] replaced by an underscore; [<safe>] contains no
    space and no [/], and so does the whole file name when [<base>]
    contains none.  A row without a recipient field is written to
    [<base>_<n>.pdf], [n] being its 1-based index. *)
Theorem C9_row_output_name (base : string) (i : nat) (r : row) :
  (forall v : string,
     row_get "recipient" r = Some (Some v) ->
     row_output_name base i r = Ok (base +:+ "_" +:+ safe_name v +:+ ".pdf")
     /\ has_char " " (safe_name v) = false
     /\ has_char "/" (safe_name v) = false
     /\ (has_char " " base = false ->
         has_char " " (base +:+ "_" +:+ safe_name v +:+ ".pdf") = false)
     /\ (has_char "/" base = false ->
         has_char "/" (base +:+ "_" +:+ safe_name v +:+ ".pdf") = false))
  /\ (row_get "recipient" r = None ->
      row_output_name base i r = Ok (base +:+ "_" +:+ str_of_nat (S i) +:+ ".pdf")).
Proof.
  split.
  - intros v Hr. unfold row_output_name. rewrite Hr.
    repeat split.
    + apply safe_name_no_space.
    + apply safe_name_no_slash.
    + intros Hb. rewrite !has_char_append, Hb, safe_name_no_space. reflexivity.
    + intros Hb. rewrite !has_char_append, Hb, safe_name_no_slash. reflexivity.
  - intros Hr. unfold row_output_name. rewrite Hr.
    replace (i + 1) with (S i) by lia. reflexivity.
Qed.

Lemma C9_witness :
  (row_get "recipient" [("recipient", Some "Ann Lee/HR")] = Some (Some "Ann Lee/HR")
   /\ row_output_name "letter" 0 [("recipient", Some "Ann Lee/HR")]
      = Ok "letter_Ann_Lee_HR.pdf")
  /\ (row_get "recipient" [("name", Some "Ann")] = None
      /\ row_output_name "letter" 2 [("name", Some "Ann")] = Ok "letter_3.pdf").
Proof.
  split; (split; [reflexivity |]).
  - exact (proj1 (proj1 (C9_row_output_name "letter" 0 [("recipient", Some "Ann Lee/HR")])
                    "Ann Lee/HR" eq_refl)).
  - exact (proj2 (C9_row_output_name "letter" 2 [("name", Some "Ann")]) eq_refl).
Defined.

(* ===================================================================== *)
(** ** Running the conversion *)
(* ===================================================================== *)

Lemma bind_inv {St A B} (m : M St A) (k : A -> M St B) st r st' :
  bind m k st = (r, st') ->
  (exists a st1, k a st1 = (r, st') /\ m st = (Ok a, st1))
  \/ (exists e, m st = (Raise e, st') /\ r = Raise e).
Proof.
  unfold bind. destruct (m st) as [[a | e] st1]; intros H.
  - left. eauto.
  - right. injection H as <- <-. eauto.
Qed.

Lemma postpone (P : Prop) : P -> postponed P.
Proof. exact id. Qed.

(** Deleting a file if it is there always succeeds, and leaves no file. *)
Lemma unlink_if_exists_run (p : option path) (w : world) :
  unlink_if_exists p w =
  (Ok tt, {| files := match p with
                      | Some q => delete q (files w)
                      | None => files w
                      end;
             log := log w |}).
Proof.
  destruct w as [fs lg]. destruct p as [q |]; [| reflexivity].
  unfold unlink_if_exists, bind, path_exists, when, unlink, ret; cbn [files log].
  destruct (fs !! q) eqn:Hq.
  - rewrite bool_decide_eq_true_2 by eauto. cbn [files log]. now rewrite Hq.
  - rewrite bool_decide_eq_false_2 by (intros [? ?]; congruence).
    now rewrite delete_id.
Qed.

(** One step of a run recorded in a hypothesis: split a [bind], open a
    primitive, or case on the value its outcome depends on. *)
Ltac tidy H := cbn [fst snd files log temp_md temp_template no_locals] in H.

Ltac open_prim H :=
  match type of H with
  | ret _ _ = _ => unfold ret in H
  | raise _ _ = _ => unfold raise in H
  | when _ _ _ = _ => unfold when in H
  | sys_exit _ _ = _ => unfold sys_exit, raise in H
  | with_suffix_m _ _ _ = _ => unfold with_suffix_m in H
  | obj_update _ _ _ = _ => unfold obj_update in H
  | obj_items _ _ = _ => unfold obj_items in H
  | set_temp_md _ _ = _ => unfold set_temp_md in H
  | set_temp_template _ _ = _ => unfold set_temp_template in H
  | parse_header_fields _ _ _ = _ => unfold parse_header_fields in H
  | read_file _ _ = _ => unfold read_file in H
  | write_file _ _ _ = _ => unfold write_file in H
  | unlink _ _ = _ => unfold unlink in H
  | copy _ _ _ = _ => unfold copy in H
  | path_exists _ _ = _ => unfold path_exists in H
  | print _ _ = _ => unfold print, emit in H
  | print_err _ _ = _ => unfold print_err, emit in H
  | emit _ _ = _ => unfold emit in H
  | subprocess_run _ _ _ _ _ = _ => unfold subprocess_run in H
  | unlink_if_exists _ _ = _ => rewrite unlink_if_exists_run in H
  | on_called_process_error _ _ _ = _ => unfold on_called_process_error in H
  | on_exception _ _ _ _ = _ => unfold on_exception in H
  | convert_try _ _ _ _ _ _ _ _ _ = _ => unfold convert_try in H
  end; tidy H.

Ltac run_step :=
  match goal with
  | H : (_, _) = (_, _) |- _ =>
      first [discriminate H | injection H; clear H; intros; subst]
  | H : io _ ?st = (_, _) |- _ =>
      unfold io in H; try (is_var st; destruct st); tidy H
  | H : (let '(_, _) := ?x in _) = (_, _) |- _ => destruct x eqn:?; tidy H
  | H : match ?x with _ => _ end = (_, _) |- _ => destruct x eqn:?; tidy H
  | H : match ?x with _ => _ end _ = (_, _) |- _ => destruct x eqn:?; tidy H
  | H : _ = (_, _) |- _ => open_prim H
  | H : bind _ _ _ = (_, _) |- _ =>
      apply bind_inv in H;
      destruct H as [(? & ? & H & ?) | (? & H & ?)];
      [| simplify_eq]; cbv beta in H
  end.

Ltac run := repeat run_step.

(** Open a call of [convert_markdown_to_pdf] recorded in [H]: first the
    paths through the [try] block, then the handler each of them reaches. *)
Ltac run_convert H :=
  unfold convert_markdown_to_pdf in H;
  apply bind_inv in H;
  destruct H as [(? & ? & H & ?) | (? & H & ->)]; cbv beta in *;
  [ match type of H with
    | context [convert_try ?E ?a ?b ?c ?d ?e ?f ?g ?st] =>
        let Hb := fresh "Hbody" in
        destruct (convert_try E a b c d e f g st) as [? [? ?]] eqn:Hb;
        apply postpone in H; run;
        match goal with
        | Hh : postponed _ |- _ => unfold postponed in Hh; cbn beta iota in Hh
        end; run
    end
  | run ].
Lemma events_since_app (w w' : world) (evs : list event) :
  log w' = (log w ++ evs)%list -> events_since w w' = evs.
Proof. intros H. unfold events_since. rewrite H. apply drop_app_length. Qed.

Lemma append_cancel_l (a b c : string) : a +:+ b = a +:+ c -> b = c.
Proof.
  induction a as [|x a IH]; intros H; [exact H |].
  rewrite !append_cons in H. injection H as H. exact (IH H).
Qed.

Lemma rdot_spec (s a b : string) :
  rdot s = Some (a, b) ->
  s = a +:+ b /\ exists b', b = String "." b' /\ has_char "." b' = false.
Proof.
  revert a b; induction s as [|c s IH]; intros a b H; [discriminate |].
  cbn [rdot] in H. destruct (rdot s) as [[a' b'] |] eqn:Hr.
  - injection H as <- <-. destruct (IH _ _ eq_refl) as [-> Hb].
    split; [reflexivity | exact Hb].
  - destruct (Ascii.eqb c ".") eqn:Hc; [| discriminate].
    injection H as <- <-. apply Ascii.eqb_eq in Hc; subst c.
    split; [reflexivity |]. exists s. split; [reflexivity |].
    clear IH. induction s as [|d s IHs]; [reflexivity |].
    cbn [rdot] in Hr. cbn [has_char].
    destruct (rdot s) as [[? ?] |]; [discriminate |].
    rewrite Ascii.eqb_sym. destruct (Ascii.eqb d "."); [discriminate |].
    now apply IHs.
Qed.

(** A file name is its stem followed by its suffix, and the suffix is
    empty or a dot followed by text without dots. *)
Lemma name_stem_suffix (nm : string) :
  nm = name_stem nm +:+ name_suffix nm
  /\ (name_suffix nm = ""
      \/ exists b', name_suffix nm = String "." b' /\ has_char "." b' = false).
Proof.
  unfold name_stem, name_suffix.
  destruct (rdot nm) as [[a b] |] eqn:Hr.
  - destruct (rdot_spec _ _ _ Hr) as [Hs (b' & Hb & Hd)].
    destruct a as [|c a]; [split; [now rewrite append_nil_r | now left] |].
    destruct b as [|d [|e b]];
      try (split; [now rewrite append_nil_r | now left]).
    split; [exact Hs | right]. exists b'. split; [exact Hb | exact Hd].
  - split; [now rewrite append_nil_r | now left].
Qed.

(** A tail that is neither empty nor a dot followed by text without dots
    is not the suffix of a name. *)
Lemma stem_append_ne (nm tail : string) :
  tail <> "" ->
  (forall b', tail = String "." b' -> has_char "." b' = true) ->
  name_stem nm +:+ tail <> nm.
Proof.
  intros Hne Hdot Heq.
  destruct (name_stem_suffix nm) as [Hnm Hsfx].
  rewrite Hnm in Heq at 2. apply append_cancel_l in Heq.
  destruct Hsfx as [Hs | (b' & Hs & Hd)]; rewrite Hs in Heq.
  - contradiction.
  - rewrite (Hdot _ Heq) in Hd. discriminate.
Qed.

(** The substituted Markdown never lands on the output file. *)
Lemma temp_md_ne_output (out tmd : path) :
  with_suffix ".temp.md" out = Some tmd -> tmd <> out.
Proof.
  unfold with_suffix. destruct out as [dir nm]; cbn [name parent fst snd].
  destruct nm as [|c nm]; [discriminate |]. intros [= <-] [= H].
  revert H. apply stem_append_ne; [discriminate |].
  intros b' [= <-]. reflexivity.
Qed.

Lemma lookup_leave (q : path) (o : option string) (fs : gmap path string) (p : path) :
  leave (Some q) o fs !! p =
  if decide (q = p) then match o with Some c => Some c | None => fs !! p end
  else fs !! p.
Proof.
  unfold leave. destruct o as [c |].
  - rewrite lookup_insert. reflexivity.
  - destruct (decide (q = p)); reflexivity.
Qed.

(** Compute the events a run added, in hypothesis [H]. *)
Ltac trace_hyp H :=
  unfold events_since in H; cbn [log] in H;
  rewrite <- ?app_assoc in H;
  first [rewrite drop_app_length in H | rewrite drop_all in H];
  cbn [app In existsb failed_run orb] in H.

(** Look a path up in the files a run left. *)
Ltac lookups :=
  cbn [files];
  repeat (rewrite lookup_delete || rewrite lookup_insert || rewrite lookup_leave);
  repeat case_decide; subst; try done.

Section ConvertFacts.

Context (E : environment).

(** A conversion only adds its own events to the trace, and it returns
    unless the output path has no file name. *)
Lemma convert_log md out tpl ov bib csl w r w' :
  convert_markdown_to_pdf E md out tpl ov bib csl w = (r, w') ->
  (exists evs, log w' = (log w ++ evs)%list /\ forallb convert_event evs = true)
  /\ (with_suffix ".typ" out <> None -> exists b, r = Ok b).
Proof.
  intros H. run_convert H.
  all: split; [| try (intros _; eexists; reflexivity); try congruence].
  all: rewrite <- ?app_assoc; try (eexists; split; reflexivity).
  all: exists []; split; [now rewrite app_nil_r | reflexivity].
Qed.

(** C4. Whenever an external program run by a conversion exits with a
    non-zero status, the conversion returns [False] to its caller, no
    exception escapes, and the files are exactly as that program left
    them: nothing is deleted, so the intermediate markup it produced, in
    part or in whole, stays on disk. *)
Theorem C4_tool_failure_keeps_files md out tpl ov bib csl w r w' argv rc snap :
  convert_markdown_to_pdf E md out tpl ov bib csl w = (r, w') ->
  In (Run argv (Some rc) snap) (events_since w w') ->
  rc <> 0%Z ->
  r = Ok false
  /\ files w' = snap
  /\ forall temp_typst markup,
       with_suffix ".typ" out = Some temp_typst ->
       snap !! temp_typst = Some markup ->
       files w' !! temp_typst = Some markup.
Proof.
  intros H Hin Hrc.
  enough (Hmain : r = Ok false /\ files w' = snap).
  { destruct Hmain as [Hr Hf]. split; [exact Hr | split; [exact Hf |]].
    intros temp_typst markup _ Hm. now rewrite Hf. }
  run_convert H.
  all: trace_hyp Hin.
  all: repeat match goal with
       | H : _ \/ _ |- _ => destruct H
       | H : False |- _ => destruct H
       | H : Run _ _ _ = Run _ _ _ |- _ => injection H; clear H; intros; subst
       | H : _ = Run _ _ _ |- _ => discriminate H
       end.
  all: try (split; reflexivity); try discriminate.
  all: repeat match goal with
       | H : true && negb (_ =? 0)%Z = false |- _ =>
           apply negb_false_iff, Z.eqb_eq in H
       end; contradiction.
Qed.

(** C3, amended.  When no external program exits with a non-zero status,
    whether the conversion succeeds or fails with an exception, none of
    its intermediate artifacts (substituted Markdown, intermediate markup,
    copied template) is left behind: after a success none of the three
    paths holds a file, and on every such exit a path that was free before
    the conversion is free after it. *)
Theorem C3_artifacts_deleted md out tpl ov bib csl w r w' p :
  convert_markdown_to_pdf E md out tpl ov bib csl w = (r, w') ->
  existsb failed_run (events_since w w') = false ->
  In p (artifacts out tpl) ->
  (r = Ok true -> files w' !! p = None)
  /\ (files w !! p = None -> files w' !! p = None).
Proof.
  intros H Hno Hin. run_convert H.
  all: trace_hyp Hno.
  all: try discriminate Hno.
  all: unfold artifacts in Hin;
    repeat match goal with
    | H : with_suffix _ _ = _ |- _ => rewrite H in Hin
    end;
    repeat match type of Hin with
    | context [match ?x with _ => _ end] => destruct x eqn:?
    end; cbn [In] in Hin.
  all: try contradiction.
  all: repeat match goal with
       | H : true && _ = _ |- _ => cbn [andb] in H
       | H : negb _ = _ |- _ => rewrite H in Hno; clear H
       end; cbn [orb] in Hno; try discriminate Hno.
  all: (split; [try discriminate |]; intros;
        destruct Hin as [<- | [<- | [<- | []]]]; lookups).
  all: exfalso; eapply temp_md_ne_output; eassumption.
Qed.

End ConvertFacts.


(* ===================================================================== *)
(** ** The batch driver *)
(* ===================================================================== *)

Local Open Scope list_scope.

Lemma bind_ok {St A B} (m : M St A) (k : A -> M St B) st a st1 :
  m st = (Ok a, st1) -> bind m k st = k a st1.
Proof. intros H. unfold bind. now rewrite H. Qed.

Lemma bind_raise {St A B} (m : M St A) (k : A -> M St B) st e st1 :
  m st = (Raise e, st1) -> bind m k st = (Raise e, st1).
Proof. intros H. unfold bind. now rewrite H. Qed.

Lemma require_file_ok (what : string) (p : path) (w : world) (c : string) :
  files w !! p = Some c -> require_file what p w = (Ok tt, w).
Proof.
  intros H. unfold require_file, bind, path_exists.
  rewrite bool_decide_eq_true_2 by eauto. reflexivity.
Qed.

Lemma read_file_ok (p : path) (w : world) (c : string) :
  files w !! p = Some c -> read_file p w = (Ok c, w).
Proof. intros H. unfold read_file. now rewrite H. Qed.

Lemma convert_event_not_merge (e : event) :
  convert_event e = true -> is_merge_event e = false.
Proof.
  destruct e as [[|prog argv] st after | | m | m]; cbn; try discriminate; try reflexivity.
  intros H. apply orb_true_iff in H as [H | H];
    apply String.eqb_eq in H; subst prog; reflexivity.
Qed.

Lemma convert_event_not_report (e : event) :
  convert_event e = true -> row_report e = None.
Proof. destruct e as [argv st after | | [] | []]; cbn; try discriminate; reflexivity. Qed.

Lemma convert_events_not_merge (evs : list event) :
  forallb convert_event evs = true -> existsb is_merge_event evs = false.
Proof.
  induction evs as [|e evs IH]; [reflexivity |]. cbn [forallb existsb].
  intros H. apply andb_true_iff in H as [He Hevs].
  now rewrite (convert_event_not_merge _ He), (IH Hevs).
Qed.

Lemma convert_events_not_report (evs : list event) :
  forallb convert_event evs = true -> row_reports evs = [].
Proof.
  induction evs as [|e evs IH]; [reflexivity |]. cbn [forallb].
  intros H. apply andb_true_iff in H as [He Hevs].
  unfold row_reports in *. cbn. now rewrite (convert_event_not_report _ He), (IH Hevs).
Qed.

Lemma row_reports_app (a b : list event) :
  row_reports (a ++ b) = row_reports a ++ row_reports b.
Proof. apply omap_app. Qed.

Lemma row_reports_cons (e : event) (evs : list event) :
  row_reports (e :: evs)
  = match row_report e with
    | Some rep => rep :: row_reports evs
    | None => row_reports evs
    end.
Proof. reflexivity. Qed.

Lemma with_suffix_some (sfx : string) (p : path) :
  name p <> "" -> with_suffix sfx p = Some (parent p, name_stem (name p) +:+ sfx).
Proof. unfold with_suffix. destruct (name p); [contradiction | reflexivity]. Qed.

Lemma rdot_none (b : string) : has_char "." b = false -> rdot b = None.
Proof.
  induction b as [|c b IH]; [reflexivity |]. cbn [has_char rdot].
  intros H. apply orb_false_iff in H as [Hc Hb]. rewrite (IH Hb).
  rewrite Ascii.eqb_sym, Hc. reflexivity.
Qed.

Lemma rdot_append (a b : string) :
  has_char "." b = false -> rdot (a +:+ String "." b) = Some (a, String "." b).
Proof.
  intros Hb. induction a as [|c a IH].
  - rewrite append_nil_l. cbn [rdot]. now rewrite (rdot_none _ Hb).
  - rewrite append_cons. cbn [rdot]. now rewrite IH.
Qed.

(** The stem of [<x>.pdf] is [<x>], for a non-empty [<x>]. *)
Lemma name_stem_pdf (c : ascii) (x : string) :
  name_stem (String c x +:+ ".pdf") = String c x.
Proof. unfold name_stem. now rewrite (rdot_append (String c x) "pdf" eq_refl). Qed.

(** The temporary PDF of a row, and the artifacts of its conversion. *)
Lemma temp_pdf_name (out : path) (i : nat) :
  exists c x,
    String c x = stem out +:+ "_temp_" +:+ str_of_nat i
    /\ temp_pdf out i = (parent out, String c x +:+ ".pdf").
Proof.
  unfold temp_pdf, joinpath.
  destruct (stem out) as [|c s] eqn:Hs.
  - exists "_"%char, ("temp_" +:+ str_of_nat i). split; reflexivity.
  - exists c, (s +:+ "_temp_" +:+ str_of_nat i). split; [reflexivity |].
    now rewrite !append_cons, !append_assoc.
Qed.

Lemma temp_pdf_apart (out tpl : path) (i : nat) :
  name tpl <> name out ->
  out <> temp_pdf out i /\ ~ In out (artifacts (temp_pdf out i) tpl).
Proof.
  intros Htpl.
  assert (Hne : forall tail, stem out +:+ "_temp_" +:+ tail <> name out).
  { intros tail. apply stem_append_ne; [discriminate |]. intros b' Hb. discriminate Hb. }
  destruct (temp_pdf_name out i) as (c & x & Hx & Hp).
  destruct out as [dir nm]. cbn [name parent fst snd] in *.
  split.
  - unfold temp_pdf, joinpath; cbn [name parent fst snd]. intros [= H].
    exact (Hne _ (eq_sym H)).
  - rewrite Hp. unfold artifacts, with_suffix; cbn [name parent fst snd].
    rewrite append_cons, <- append_cons, name_stem_pdf.
    cbn [In joinpath parent fst]. rewrite Hx.
    intros [[= H] | [[= H] | [[= H] | []]]].
    + rewrite !append_assoc in H. exact (Hne _ H).
    + rewrite !append_assoc in H. exact (Hne _ H).
    + contradiction.
Qed.

Lemma row_output_name_nonempty (base : string) (i : nat) (r : row) (nm : string) :
  row_output_name base i r = Ok nm -> nm <> "".
Proof.
  unfold row_output_name.
  destruct (row_get "recipient" r) as [[v |] |]; intros [= <-];
    destruct base; discriminate.
Qed.

Section BatchFacts.

Context (E : environment).

(** A conversion touches nothing but its output and its artifacts. *)
Lemma convert_frame md out tpl ov bib csl w r w' p :
  convert_markdown_to_pdf E md out tpl ov bib csl w = (r, w') ->
  p <> out -> ~ In p (artifacts out tpl) ->
  files w' !! p = files w !! p.
Proof.
  intros H Hout Hart.
  destruct (string_dec (name out) "") as [Hn | Hn].
  - unfold convert_markdown_to_pdf, with_suffix_m, with_suffix in H.
    rewrite Hn in H. cbn in H. now injection H as _ <-.
  - unfold artifacts in Hart.
    rewrite !(with_suffix_some _ _ Hn) in Hart. cbn [In parent fst] in Hart.
    assert (H1 : (parent out, name_stem (name out) +:+ ".temp.md") <> p) by tauto.
    assert (H2 : (parent out, name_stem (name out) +:+ ".typ") <> p) by tauto.
    assert (H3 : joinpath (parent out) (name tpl) <> p) by tauto.
    clear Hart.
    run_convert H.
    all: repeat match goal with
         | H : with_suffix _ _ = Some _ |- _ =>
             rewrite (with_suffix_some _ _ Hn) in H;
             injection H; clear H; intros; subst
         end; cbn [parent fst] in *.
    all: lookups.
Qed.

Section Rows.

Variables (md out tpl : path) (bib csl : option path).

Let rows_from := merge_rows E md out tpl bib csl.

(** Rows that all convert are passed, and the loop goes on with the rest. *)
Lemma merge_rows_app (pre rest : list row) : forall i acc w acc' w1,
  rows_from i pre acc w = (Ok acc', w1) ->
  rows_from i (pre ++ rest) acc w = rows_from (i + length pre) rest acc' w1.
Proof.
  subst rows_from.
  induction pre as [|r pre IH]; intros i acc w acc' w1 H.
  - injection H as <- <-. now rewrite Nat.add_0_r.
  - cbn [merge_rows app length] in *. unfold bind at 1 in H. unfold bind at 1.
    destruct (convert_markdown_to_pdf _ _ _ _ _ _ _ w) as [[[|] | e] w0].
    + rewrite (IH _ _ _ _ _ H). f_equal. lia.
    + unfold bind, print_err, emit, sys_exit, raise in H. discriminate H.
    + discriminate H.
Qed.

(** The loop of merge mode merges nothing, and writes neither the
    output file nor anything else outside its rows' files. *)
Lemma merge_rows_trace (rows : list row) : forall i acc w r w',
  rows_from i rows acc w = (r, w') ->
  exists evs, log w' = (log w ++ evs)%list /\ existsb is_merge_event evs = false.
Proof.
  subst rows_from.
  induction rows as [|row rows IH]; intros i acc w r w' H.
  - injection H as <- <-. exists []. now rewrite app_nil_r.
  - cbn [merge_rows] in H. unfold bind at 1 in H.
    destruct (convert_markdown_to_pdf _ _ _ _ _ _ _ w) as [[[|] | e] w0] eqn:Hc;
      destruct (proj1 (convert_log _ _ _ _ _ _ _ _ _ _ Hc)) as (evs & Hl & Hev);
      apply convert_events_not_merge in Hev.
    + destruct (IH _ _ _ _ _ H) as (evs' & Hl' & Hev').
      exists (evs ++ evs')%list. rewrite Hl', Hl, app_assoc. split; [reflexivity |].
      now rewrite existsb_app, Hev, Hev'.
    + unfold bind, print_err, emit, sys_exit, raise in H. cbn [log files] in H.
      injection H as <- <-. cbn [log]. rewrite Hl, <- app_assoc.
      eexists. split; [reflexivity |]. now rewrite existsb_app, Hev.
    + injection H as <- <-. exists evs. now split.
Qed.

Lemma merge_rows_frame (p : path) (rows : list row) : forall i acc w r w',
  rows_from i rows acc w = (r, w') ->
  (forall j, p <> temp_pdf out j /\ ~ In p (artifacts (temp_pdf out j) tpl)) ->
  files w' !! p = files w !! p.
Proof.
  subst rows_from.
  induction rows as [|row rows IH]; intros i acc w r w' H Hp.
  - now injection H as <- <-.
  - cbn [merge_rows] in H. unfold bind at 1 in H.
    destruct (convert_markdown_to_pdf _ _ _ _ _ _ _ w) as [[[|] | e] w0] eqn:Hc;
      pose proof (convert_frame _ _ _ _ _ _ _ _ _ p Hc
                    (proj1 (Hp i)) (proj2 (Hp i))) as Hf.
    + rewrite (IH _ _ _ _ _ H Hp). exact Hf.
    + unfold bind, print_err, emit, sys_exit, raise in H. cbn [log files] in H.
      now injection H as <- <-.
    + now injection H as <- <-.
Qed.

(** C5. In merge mode, once the rows before a row have been converted and
    the conversion of that row fails, the batch stops there: the process
    exits with status 1, nothing happens after the failed conversion but
    its report (no later row is converted, no file is written), no merge
    provider is ever invoked, and the output path holds what it held
    before the batch (no merged file is produced), the template not being
    named like the output file. *)
Theorem C5_merge_mode_aborts_on_failure
    (csv_path : path) (text : string) (pre : list row) (r : row) (post : list row)
    (temp_pdfs : list path) (w w1 w2 : world) :
  files w !! csv_path = Some text ->
  csv_rows E text = pre ++ r :: post ->
  rows_from 0 pre [] (announced w (pre ++ r :: post)) = (Ok temp_pdfs, w1) ->
  convert_markdown_to_pdf E md (temp_pdf out (length pre)) tpl
    (Some (dict_of_row r)) bib csl w1 = (Ok false, w2) ->
  exit_status (fst (mail_merge E md out tpl bib csl csv_path true w)) = 1%Z
  /\ events_since w2 (snd (mail_merge E md out tpl bib csl csv_path true w))
     = [PrintErr (MsgRowFailed (length pre + 1))]
  /\ files (snd (mail_merge E md out tpl bib csl csv_path true w)) = files w2
  /\ existsb is_merge_event
       (events_since w (snd (mail_merge E md out tpl bib csl csv_path true w))) = false
  /\ (name tpl <> name out ->
      files (snd (mail_merge E md out tpl bib csl csv_path true w)) !! out
      = files w !! out).
Proof.
  intros Hcsv Hrows Hpre Hrow.
  assert (Hrun : mail_merge E md out tpl bib csl csv_path true w
                 = (Raise (SystemExit 1),
                    {| files := files w2;
                       log := log w2 ++ [PrintErr (MsgRowFailed (length pre + 1))] |})).
  { unfold mail_merge.
    rewrite (bind_ok _ _ _ _ _ (require_file_ok _ _ _ _ Hcsv)).
    rewrite (bind_ok _ _ _ _ _ (read_file_ok _ _ _ Hcsv)).
    rewrite Hrows.
    assert (Hcons : forall (A : Type) (k1 k2 : A),
               match pre ++ r :: post with [] => k1 | _ :: _ => k2 end = k2)
      by (intros; destruct pre; reflexivity).
    rewrite Hcons.
    assert (Hp : print (MsgProcessing (length (pre ++ r :: post))) w
                 = (Ok tt, announced w (pre ++ r :: post))) by reflexivity.
    rewrite (bind_ok _ _ _ _ _ Hp).
    apply bind_raise. unfold merge_mode. apply bind_raise. fold rows_from.
    rewrite (merge_rows_app _ _ _ _ _ _ _ Hpre).
    subst rows_from. cbn [merge_rows Nat.add].
    rewrite (bind_ok _ _ _ _ _ Hrow). reflexivity. }
  rewrite Hrun. cbn [fst snd files log exit_status].
  split; [reflexivity |]. split; [| split; [reflexivity |]]; [| split].
  - unfold events_since; cbn [log]. apply drop_app_length.
  - destruct (merge_rows_trace _ _ _ _ _ _ Hpre) as (evs1 & Hl1 & He1).
    destruct (proj1 (convert_log _ _ _ _ _ _ _ _ _ _ Hrow)) as (evs2 & Hl2 & He2).
    apply convert_events_not_merge in He2.
    unfold announced in Hl1; cbn [log] in Hl1.
    unfold events_since; cbn [log].
    rewrite Hl2, Hl1, <- !app_assoc, drop_app_length.
    now rewrite !existsb_app, He1, He2.
  - intros Htpl.
    pose proof (temp_pdf_apart out tpl) as Hap.
    rewrite (convert_frame _ _ _ _ _ _ _ _ _ out Hrow
               (proj1 (Hap _ Htpl)) (proj2 (Hap _ Htpl))).
    now rewrite (merge_rows_frame out _ _ _ _ _ _ Hpre (fun j => Hap j Htpl)).
Qed.

Let rows_each := each_row E md out tpl bib csl.

Lemma row_output_ok (i : nat) (r : row) (w : world) :
  recipient_is_text r = true ->
  exists nm,
    row_output_name (stem out) i r = Ok nm
    /\ row_output out i r w = (Ok (joinpath (parent out) nm), w).
Proof.
  unfold recipient_is_text, row_output, row_output_name.
  destruct (row_get "recipient" r) as [[v |] |]; intros H;
    try discriminate H; eexists; split; reflexivity.
Qed.

Lemma row_outputs_length (rows : list row) : forall i,
  forallb recipient_is_text rows = true ->
  length (row_outputs out i rows) = length rows.
Proof.
  induction rows as [|r rows IH]; intros i H; [reflexivity |].
  cbn [forallb] in H. apply andb_true_iff in H as [Hr Hrows].
  destruct (row_output_ok i r {| files := ∅; log := [] |} Hr) as (nm & Hnm & _).
  cbn [row_outputs]. rewrite Hnm. cbn [length]. now rewrite IH.
Qed.

(** The loop of per-row mode goes through all the rows, whatever their
    conversions return, and reports each of them once, in row order. *)
Lemma each_row_trace (rows : list row) : forall i w,
  forallb recipient_is_text rows = true ->
  exists w' evs,
    rows_each i rows w = (Ok tt, w')
    /\ log w' = log w ++ evs
    /\ map fst (row_reports evs) = row_outputs out i rows.
Proof.
  subst rows_each.
  induction rows as [|r rows IH]; intros i w H.
  - exists w, []. repeat split. now rewrite app_nil_r.
  - cbn [forallb] in H. apply andb_true_iff in H as [Hr Hrows].
    destruct (row_output_ok i r w Hr) as (nm & Hnm & Hout).
    cbn [each_row row_outputs]. rewrite Hnm, (bind_ok _ _ _ _ _ Hout).
    destruct (convert_markdown_to_pdf E md (joinpath (parent out) nm) tpl
                (Some (dict_of_row r)) bib csl w) as [res w1] eqn:Hc.
    destruct (convert_log _ _ _ _ _ _ _ _ _ _ Hc) as [(evs & Hl & Hev) Hret].
    destruct Hret as [b ->].
    { rewrite (with_suffix_some ".typ" (joinpath (parent out) nm)
                 (row_output_name_nonempty _ _ _ _ Hnm)). discriminate. }
    rewrite (bind_ok _ _ _ _ _ Hc).
    set (report := if negb b then PrintErr (MsgFailedToGenerate (joinpath (parent out) nm))
                   else Print (MsgGenerated (joinpath (parent out) nm))).
    assert (Hrep : (if negb b then print_err (MsgFailedToGenerate (joinpath (parent out) nm))
                    else print (MsgGenerated (joinpath (parent out) nm))) w1
                   = (Ok tt, {| files := files w1; log := log w1 ++ [report] |}))
      by (subst report; destruct b; reflexivity).
    rewrite (bind_ok _ _ _ _ _ Hrep).
    destruct (IH (S i) {| files := files w1; log := log w1 ++ [report] |} Hrows)
      as (w' & evs' & Hrun & Hl' & Hreps).
    exists w', (evs ++ report :: evs'). split; [exact Hrun |]. split.
    + rewrite Hl'. cbn [log]. rewrite Hl, <- !app_assoc. reflexivity.
    + rewrite row_reports_app, (convert_events_not_report _ Hev), app_nil_l.
      subst report. destruct b; cbn [negb]; rewrite row_reports_cons;
        cbn [row_report map fst]; now rewrite Hreps.
Qed.

End Rows.

End BatchFacts.

(* ===================================================================== *)
(** ** The properties on the sample project *)
(* ===================================================================== *)

(** C3, as stated, fails: when [pandoc] exits with a non-zero status the
    conversion returns [False] and the substituted Markdown, which it
    created, is still on disk. *)
Lemma C3_counterexample :
  fst Sample.run_pandoc_fails = Ok false
  /\ In Sample.temp_md_path (artifacts Sample.out Sample.tpl)
  /\ files Sample.start !! Sample.temp_md_path = None
  /\ files (snd Sample.run_pandoc_fails) !! Sample.temp_md_path = Some "Hello Test".
Proof. repeat split. left; reflexivity. Qed.

Lemma C3_witness :
  existsb failed_run (events_since Sample.start (snd Sample.run_ok)) = false
  /\ In Sample.temp_md_path (artifacts Sample.out Sample.tpl)
  /\ files (snd Sample.run_ok) !! Sample.temp_md_path = None.
Proof.
  assert (Hrun : convert_markdown_to_pdf (Sample.env None) Sample.md Sample.out
                   Sample.tpl None None None Sample.start
                 = (Ok true, snd Sample.run_ok)) by (vm_compute; reflexivity).
  assert (Hno : existsb failed_run (events_since Sample.start (snd Sample.run_ok)) = false)
    by (vm_compute; reflexivity).
  assert (Hin : In Sample.temp_md_path (artifacts Sample.out Sample.tpl))
    by (left; reflexivity).
  split; [exact Hno | split; [exact Hin |]].
  exact (proj1 (C3_artifacts_deleted _ _ _ _ _ _ _ _ _ _ _ Hrun Hno Hin) eq_refl).
Defined.

Lemma C4_witness :
  In (Run ["pandoc"; "out/letter.temp.md"; "-t"; "typst"; "-o"; "out/letter.typ"]
        (Some 1%Z) Sample.after_pandoc)
     (events_since Sample.start (snd Sample.run_pandoc_fails))
  /\ fst Sample.run_pandoc_fails = Ok false
  /\ files (snd Sample.run_pandoc_fails) = Sample.after_pandoc
  /\ files (snd Sample.run_pandoc_fails) !! Sample.temp_typst_path = Some "= Part".
Proof.
  assert (Hrun : convert_markdown_to_pdf (Sample.env (Some "letter")) Sample.md
                   Sample.out Sample.tpl None None None Sample.start
                 = (fst Sample.run_pandoc_fails, snd Sample.run_pandoc_fails))
    by (vm_compute; reflexivity).
  assert (Hin : In (Run ["pandoc"; "out/letter.temp.md"; "-t"; "typst"; "-o"; "out/letter.typ"]
                      (Some 1%Z) Sample.after_pandoc)
                   (events_since Sample.start (snd Sample.run_pandoc_fails)))
    by (vm_compute; right; left; reflexivity).
  assert (Hrc : 1%Z <> 0%Z) by lia.
  destruct (C4_tool_failure_keeps_files _ _ _ _ _ _ _ _ _ _ _ _ _ Hrun Hin Hrc)
    as (Hr & Hf & Hkeep).
  split; [exact Hin | split; [exact Hr | split; [exact Hf |]]].
  apply Hkeep; reflexivity.
Defined.

Lemma C5_witness :
  files Sample.start !! Sample.csv = Some "people"
  /\ csv_rows (Sample.env (Some "_temp_1")) "people" = [Sample.ann] ++ Sample.bob :: [Sample.cy]
  /\ exit_status (fst Sample.merge_run) = 1%Z
  /\ existsb is_merge_event (events_since Sample.start (snd Sample.merge_run)) = false
  /\ files (snd Sample.merge_run) !! Sample.out = None.
Proof.
  assert (Hcsv : files Sample.start !! Sample.csv = Some "people") by reflexivity.
  assert (Hrows : csv_rows (Sample.env (Some "_temp_1")) "people"
                  = [Sample.ann] ++ Sample.bob :: [Sample.cy]) by reflexivity.
  assert (Hpre : merge_rows (Sample.env (Some "_temp_1")) Sample.md Sample.out
                   Sample.tpl None None 0 [Sample.ann] []
                   (announced Sample.start ([Sample.ann] ++ Sample.bob :: [Sample.cy]))
                 = (Ok [("out", "letter_temp_0.pdf")], Sample.before_bob))
    by (vm_compute; reflexivity).
  assert (Hrow : convert_markdown_to_pdf (Sample.env (Some "_temp_1")) Sample.md
                   (temp_pdf Sample.out (length [Sample.ann])) Sample.tpl
                   (Some (dict_of_row Sample.bob)) None None Sample.before_bob
                 = (Ok false, Sample.after_bob))
    by (vm_compute; reflexivity).
  assert (Htpl : name Sample.tpl <> name Sample.out) by discriminate.
  destruct (C5_merge_mode_aborts_on_failure _ _ _ _ _ _ _ _ _ _ _ _ _ _ _
              Hcsv Hrows Hpre Hrow) as (Hexit & _ & _ & Hmerge & Hout).
  split; [exact Hcsv | split; [exact Hrows | split; [exact Hexit | split; [exact Hmerge |]]]].
  exact (Hout Htpl).
Defined.

(** C6 (code defect).  Per-row mode does not always go on to the
    remaining rows: a row shorter than the position of the [recipient]
    column has [None] in that cell, and line 400 calls [.replace] on it
    outside any [try].  On the sample, after the failed conversion of the
    row of Bob has been reported, the short row raises [AttributeError]:
    the process ends with status 1 and the row of Cy is never converted
    nor reported. *)
Theorem C6_short_row_stops_the_batch :
  csv_rows Cases.env_short_row "people" = [Cases.paris; Cases.rome; Cases.oslo]
  /\ fst Cases.short_row_run = Raise AttributeError
  /\ exit_status (fst Cases.short_row_run) = 1%Z
  /\ row_reports (events_since Sample.start (snd Cases.short_row_run))
     = [(("out", "letter_Bob.pdf"), false)]
  /\ files (snd Cases.short_row_run) !! ("out", "letter_Cy.pdf") = None.
Proof. vm_compute. repeat split. Qed.

(** On the sample, the row of Bob fails, is reported as failed, and the
    row after it is still generated. *)
Example per_row_sample_reports :
  row_reports (events_since Sample.start (snd Sample.per_row_run))
  = [(("out", "letter_Ann_Lee.pdf"), true);
     (("out", "letter_Bob.pdf"), false);
     (("out", "letter_Cy.pdf"), true)].
Proof. vm_compute. reflexivity. Qed.

(* ===================================================================== *)
(** ** Further properties: header, substitution, parameters *)
(* ===================================================================== *)




(** X2. Values that are not strings never take part in the substitution:
    the text is the same as if the mapping held its string-valued fields
    only, and a mapping without string values leaves the text as it is. *)
Theorem substitute_strings_only (fields : dict) (body : string) :
  substitute fields body
  = substitute (filter (fun kv => is_str (snd kv)) fields) body
  /\ (forallb (fun kv => negb (is_str (snd kv))) fields = true ->
      substitute fields body = body).
Proof.
  unfold substitute. split.
  - revert body. induction fields as [|[k v] rest IH]; intros body; [reflexivity |].
    cbn [fold_left]. rewrite IH.
    unfold filter; cbn [list_filter]. fold (filter (fun kv => is_str (snd kv)) rest).
    destruct v; cbn; reflexivity.
  - revert body. induction fields as [|[k v] rest IH]; intros body H; [reflexivity |].
    cbn [forallb] in H. apply andb_true_iff in H as [Hv Hrest].
    cbn [fold_left]. rewrite (IH _ Hrest).
    destruct v; try reflexivity. discriminate Hv.
Qed.

(* --------------------------------------------------------------------- *)

Lemma contains_char (a : ascii) (s : string) :
  contains (String a "") s = has_char a s.
Proof.
  induction s as [|c s IH]; [reflexivity |].
  cbn [contains startswith has_char]. rewrite IH.
  now rewrite andb_true_r.
Qed.

Lemma replace_char_absent (a : ascii) (new s : string) :
  has_char a s = false -> replace (String a "") new s = s.
Proof. intros H. apply replace_absent. now rewrite contains_char. Qed.

Lemma has_char_map_chars (a : ascii) (f : ascii -> ascii) (s : string) :
  (forall c, Ascii.eqb a (f c) = Ascii.eqb a c) ->
  has_char a (map_chars f s) = has_char a s.
Proof.
  intros Hf. induction s as [|c s IH]; [reflexivity |].
  cbn [map_chars has_char]. now rewrite Hf, IH.
Qed.

Lemma lower_char_keeps_space (c : ascii) :
  Ascii.eqb " " (lower_char c) = Ascii.eqb " " c.
Proof. destruct c as [[] [] [] [] [] [] [] []]; reflexivity. Qed.

Lemma lower_char_keeps_hyphen (c : ascii) :
  Ascii.eqb "-" (lower_char c) = Ascii.eqb "-" c.
Proof. destruct c as [[] [] [] [] [] [] [] []]; reflexivity. Qed.

Lemma lower_char_keeps_newline (c : ascii) :
  Ascii.eqb (ascii_of_nat 10) (lower_char c) = Ascii.eqb (ascii_of_nat 10) c.
Proof. destruct c as [[] [] [] [] [] [] [] []]; reflexivity. Qed.

Lemma lower_char_idem (c : ascii) : lower_char (lower_char c) = lower_char c.
Proof. destruct c as [[] [] [] [] [] [] [] []]; reflexivity. Qed.

Lemma lower_idem (s : string) : lower (lower s) = lower s.
Proof.
  unfold lower. induction s as [|c s IH]; [reflexivity |].
  cbn [map_chars]. now rewrite lower_char_idem, IH.
Qed.

(** X3. A normalized key contains no space and no hyphen, is in lower
    case, and normalizing it again changes nothing. *)
Theorem normalize_key_shape (key : string) :
  has_char " " (normalize_key key) = false
  /\ has_char "-" (normalize_key key) = false
  /\ lower (normalize_key key) = normalize_key key
  /\ normalize_key (normalize_key key) = normalize_key key.
Proof.
  assert (Hsp : has_char " " (normalize_key key) = false).
  { unfold normalize_key, lower.
    rewrite (has_char_map_chars _ _ _ lower_char_keeps_space).
    apply has_char_replace_other; [reflexivity |].
    apply has_char_replace_same. reflexivity. }
  assert (Hhy : has_char "-" (normalize_key key) = false).
  { unfold normalize_key, lower.
    rewrite (has_char_map_chars _ _ _ lower_char_keeps_hyphen).
    apply has_char_replace_same. reflexivity. }
  assert (Hlo : lower (normalize_key key) = normalize_key key).
  { unfold normalize_key. apply lower_idem. }
  split; [exact Hsp | split; [exact Hhy | split; [exact Hlo |]]].
  unfold normalize_key at 1.
  rewrite (replace_char_absent " " "_" _ Hsp), (replace_char_absent "-" "_" _ Hhy).
  exact Hlo.
Qed.

(* --------------------------------------------------------------------- *)

Lemma replace_char_append (a : ascii) (new s t : string) :
  replace (String a "") new (s +:+ t)
  = replace (String a "") new s +:+ replace (String a "") new t.
Proof.
  induction s as [|c s IH]; [reflexivity |].
  rewrite append_cons, !replace_char_cons, IH.
  destruct (Ascii.eqb a c); [now rewrite append_assoc | reflexivity].
Qed.

Lemma escape_other_cons (c : ascii) (v : string) :
  escape_other (String c v)
  = (if Ascii.eqb "\" c then "\\"
     else if Ascii.eqb (ascii_of_nat 34) c then String "\" DQ
     else if Ascii.eqb (ascii_of_nat 10) c then "\n"
     else String c "") +:+ escape_other v.
Proof.
  unfold escape_other, BS, DQ, NL, chr.
  rewrite replace_char_cons.
  destruct (Ascii.eqb "\" c) eqn:Hbs.
  - change (ascii_of_nat 92) with "\"%char. rewrite Hbs.
    now rewrite !replace_char_append.
  - change (ascii_of_nat 92) with "\"%char. rewrite Hbs.
    rewrite replace_char_cons.
    destruct (Ascii.eqb (ascii_of_nat 34) c) eqn:Hdq.
    + now rewrite replace_char_append.
    + rewrite replace_char_cons.
      destruct (Ascii.eqb (ascii_of_nat 10) c); reflexivity.
Qed.

Lemma escape_short_cons (c : ascii) (v : string) :
  escape_short (String c v)
  = (if Ascii.eqb "\" c then "\\"
     else if Ascii.eqb (ascii_of_nat 34) c then String "\" DQ
     else String c "") +:+ escape_short v.
Proof.
  unfold escape_short, BS, DQ, chr.
  rewrite replace_char_cons.
  change (ascii_of_nat 92) with "\"%char.
  destruct (Ascii.eqb "\" c) eqn:Hbs.
  - now rewrite !replace_char_append.
  - rewrite replace_char_cons.
    destruct (Ascii.eqb (ascii_of_nat 34) c); reflexivity.
Qed.

Lemma unescape_escape_other (v : string) : unescape (escape_other v) = v.
Proof.
  induction v as [|c v IH]; [reflexivity |].
  rewrite escape_other_cons.
  destruct (Ascii.eqb "\" c) eqn:Hbs.
  { apply Ascii.eqb_eq in Hbs; subst c. cbn [unescape append_cons].
    change ("\\" +:+ escape_other v) with (String "\" (String "\" (escape_other v))).
    cbn [unescape Ascii.eqb Bool.eqb]. now rewrite IH. }
  destruct (Ascii.eqb (ascii_of_nat 34) c) eqn:Hdq.
  { apply Ascii.eqb_eq in Hdq; subst c.
    change (String "\" DQ +:+ escape_other v)
      with (String "\" (String (ascii_of_nat 34) (escape_other v))).
    cbn [unescape Ascii.eqb Bool.eqb]. now rewrite IH. }
  destruct (Ascii.eqb (ascii_of_nat 10) c) eqn:Hnl.
  { apply Ascii.eqb_eq in Hnl; subst c.
    change ("\n" +:+ escape_other v) with (String "\" (String "n" (escape_other v))).
    cbn [unescape Ascii.eqb Bool.eqb]. now rewrite IH. }
  change (String c "" +:+ escape_other v) with (String c (escape_other v)).
  cbn [unescape]. rewrite Ascii.eqb_sym, Hbs. now rewrite IH.
Qed.

Lemma unescape_escape_short (v : string) : unescape (escape_short v) = v.
Proof.
  induction v as [|c v IH]; [reflexivity |].
  rewrite escape_short_cons.
  destruct (Ascii.eqb "\" c) eqn:Hbs.
  { apply Ascii.eqb_eq in Hbs; subst c.
    change ("\\" +:+ escape_short v) with (String "\" (String "\" (escape_short v))).
    cbn [unescape Ascii.eqb Bool.eqb]. now rewrite IH. }
  destruct (Ascii.eqb (ascii_of_nat 34) c) eqn:Hdq.
  { apply Ascii.eqb_eq in Hdq; subst c.
    change (String "\" DQ +:+ escape_short v)
      with (String "\" (String (ascii_of_nat 34) (escape_short v))).
    cbn [unescape Ascii.eqb Bool.eqb]. now rewrite IH. }
  change (String c "" +:+ escape_short v) with (String c (escape_short v)).
  cbn [unescape]. rewrite Ascii.eqb_sym, Hbs. now rewrite IH.
Qed.

(** X4. The escaping of quoted parameters loses nothing: reading the
    literal back, a backslash giving the next character its plain meaning
    and [\n] standing for a newline, returns the value, for short strings
    and for the other values alike; so different values never give the
    same literal. *)
Theorem escaping_round_trip :
  (forall v, unescape (escape_short v) = v)
  /\ (forall v, unescape (escape_other v) = v)
  /\ (forall a b, escape_short a = escape_short b -> a = b)
  /\ (forall a b, escape_other a = escape_other b -> a = b).
Proof.
  split; [exact unescape_escape_short |].
  split; [exact unescape_escape_other |]. split.
  - intros a b H. rewrite <- (unescape_escape_short a), H.
    apply unescape_escape_short.
  - intros a b H. rewrite <- (unescape_escape_other a), H.
    apply unescape_escape_other.
Qed.

(* --------------------------------------------------------------------- *)

Lemma uint_no_newline (d : Decimal.uint) :
  has_char (ascii_of_nat 10) (NilEmpty.string_of_uint d) = false.
Proof. induction d; cbn [NilEmpty.string_of_uint has_char]; try reflexivity; exact IHd. Qed.

Lemma str_of_Z_no_newline (z : Z) : has_char (ascii_of_nat 10) (str_of_Z z) = false.
Proof.
  unfold str_of_Z, NilZero.string_of_int, NilZero.string_of_uint.
  destruct (Z.to_int z) as [d | d]; cbn [has_char].
  - destruct d; try reflexivity; apply (uint_no_newline (_ d)).
  - destruct d; try reflexivity; apply (uint_no_newline (_ d)).
Qed.

Lemma escape_other_no_newline (s : string) :
  has_char (ascii_of_nat 10) (escape_other s) = false.
Proof. unfold escape_other, NL, chr. apply has_char_replace_same. reflexivity. Qed.

Lemma escape_short_no_newline (s : string) :
  is_long s = false -> has_char (ascii_of_nat 10) (escape_short s) = false.
Proof.
  unfold is_long, NL, chr. intros H. apply orb_false_iff in H as [H _].
  rewrite contains_char in H. unfold escape_short, BS, DQ, chr.
  apply has_char_replace_other; [reflexivity |].
  apply has_char_replace_other; [reflexivity | exact H].
Qed.

Lemma normalize_key_no_newline (key : string) :
  has_char (ascii_of_nat 10) key = false ->
  has_char (ascii_of_nat 10) (normalize_key key) = false.
Proof.
  intros H. unfold normalize_key, lower.
  rewrite (has_char_map_chars _ _ _ lower_char_keeps_newline).
  apply has_char_replace_other; [reflexivity |].
  apply has_char_replace_other; [reflexivity | exact H].
Qed.

(** X5. Every parameter other than a bracketed block is written on one
    line: for a key without newline, the parameter line of a short string,
    a boolean, an integer, a missing value or any other non-string value
    contains no newline (that of a float, when its printed form has none). *)
Theorem parameter_on_one_line (key : string) (v : value) :
  has_char (ascii_of_nat 10) key = false ->
  match v with
  | VStr s => is_long s = false
  | VFloat r => has_char (ascii_of_nat 10) r = false
  | _ => True
  end ->
  has_char (ascii_of_nat 10) (format_param (normalize_key key) v) = false.
Proof.
  intros Hk Hv. apply normalize_key_no_newline in Hk.
  destruct v as [s | b | z | r | | s]; cbn [format_param].
  - rewrite Hv. unfold quoted, DQ, chr.
    now rewrite !has_char_append, Hk, (escape_short_no_newline _ Hv).
  - unfold bare. rewrite !has_char_append, Hk. now destruct b.
  - unfold bare. now rewrite !has_char_append, Hk, str_of_Z_no_newline.
  - unfold bare. now rewrite !has_char_append, Hk, Hv.
  - unfold quoted, DQ, chr.
    now rewrite !has_char_append, Hk, escape_other_no_newline.
  - unfold quoted, DQ, chr.
    now rewrite !has_char_append, Hk, escape_other_no_newline.
Qed.

Lemma parameter_on_one_line_witness :
  has_char (ascii_of_nat 10) "Doc Title" = false
  /\ is_long ("a " +:+ DQ +:+ "b" +:+ DQ) = false
  /\ has_char (ascii_of_nat 10)
       (format_param (normalize_key "Doc Title") (VStr ("a " +:+ DQ +:+ "b" +:+ DQ))) = false.
Proof.
  split; [reflexivity | split; [reflexivity |]].
  apply (parameter_on_one_line "Doc Title" (VStr ("a " +:+ DQ +:+ "b" +:+ DQ)));
    reflexivity.
Defined.

(* --------------------------------------------------------------------- *)

Lemma dict_get_set (k k' : string) (v : value) (d : dict) :
  dict_get k (dict_set k' v d)
  = if String.eqb k k' then Some v else dict_get k d.
Proof.
  induction d as [|[k0 v0] d IH].
  - cbn [dict_set dict_get]. reflexivity.
  - cbn [dict_set]. destruct (String.eqb k' k0) eqn:E0.
    + apply String.eqb_eq in E0; subst k0. cbn [dict_get].
      destruct (String.eqb k k'); reflexivity.
    + cbn [dict_get]. rewrite IH.
      destruct (String.eqb k k0) eqn:E1; [| reflexivity].
      apply String.eqb_eq in E1; subst k0.
      rewrite String.eqb_sym, E0. reflexivity.
Qed.

Lemma dict_get_app (k : string) (a b : dict) :
  dict_get k (a ++ b)
  = match dict_get k a with Some v => Some v | None => dict_get k b end.
Proof.
  induction a as [|[k0 v0] a IH]; [reflexivity |].
  cbn [app dict_get]. destruct (String.eqb k k0); [reflexivity | exact IH].
Qed.

Lemma keys_dict_set (k : string) (v : value) (d : dict) :
  keys (dict_set k v d) = if existsb (String.eqb k) (keys d) then keys d else keys d ++ [k].
Proof.
  unfold keys. induction d as [|[k0 v0] d IH]; [reflexivity |].
  cbn [dict_set map fst existsb]. destruct (String.eqb k k0); [reflexivity |].
  cbn [map fst orb]. rewrite IH. destruct (existsb _ _); reflexivity.
Qed.

Lemma existsb_eqb_In (k : string) (l : list string) :
  existsb (String.eqb k) l = false -> ~ In k l.
Proof.
  induction l as [|x l IH]; [intros _ [] |]. cbn [existsb].
  intros H [Hx | Hl]; apply orb_false_iff in H as [H1 H2].
  - subst x. rewrite String.eqb_refl in H1. discriminate.
  - exact (IH H2 Hl).
Qed.

(** X6. Applying overrides ([fields.update]): every key of the overrides
    gets their value (the last one given for it), every other key keeps
    its own; the keys already present stay where they are, new ones
    come after them; and keys remain unique. *)
Theorem overrides_take_precedence (d o : dict) :
  (forall k,
     dict_get k (dict_update d o)
     = match dict_get k (rev o) with
       | Some v => Some v
       | None => dict_get k d
       end)
  /\ (exists added, keys (dict_update d o) = keys d ++ added)
  /\ (NoDup (keys d) -> NoDup (keys (dict_update d o))).
Proof.
  unfold dict_update. revert d. induction o as [|[k0 v0] o IH]; intros d.
  - split; [reflexivity |]. split; [exists []; now rewrite app_nil_r | trivial].
  - cbn [fold_left fst snd rev].
    destruct (IH (dict_set k0 v0 d)) as (Hget & (added & Hkeys) & Hnd).
    split; [| split].
    + intros k. rewrite Hget, dict_get_app, dict_get_set. cbn [dict_get].
      destruct (dict_get k (rev o)); [reflexivity |].
      destruct (String.eqb k k0); reflexivity.
    + rewrite Hkeys, keys_dict_set.
      destruct (existsb _ _); [now exists added |].
      exists (k0 :: added). now rewrite <- app_assoc.
    + intros Hd. apply Hnd. rewrite keys_dict_set.
      destruct (existsb _ _) eqn:E; [exact Hd |].
      apply NoDup_app. split; [exact Hd |]. split.
      * intros x Hx Hin. apply list_elem_of_In in Hx.
        apply list_elem_of_In in Hin. destruct Hin as [<- | []].
        exact (existsb_eqb_In _ _ E Hx).
      * apply NoDup_cons. split; [intros H; inversion H | constructor].
Qed.

(* --------------------------------------------------------------------- *)

Lemma append_length (a b : string) :
  String.length (a +:+ b) = String.length a + String.length b.
Proof.
  induction a as [|x a IH]; [reflexivity |].
  rewrite append_cons. cbn [String.length]. now rewrite IH.
Qed.

Lemma append_cancel_r (a b c : string) : a +:+ c = b +:+ c -> a = b.
Proof.
  revert b. induction a as [|x a IH]; intros b H.
  - destruct b as [|y b]; [reflexivity |].
    apply (f_equal String.length) in H.
    rewrite append_nil_l, append_length in H. cbn [String.length] in H. lia.
  - destruct b as [|y b].
    + apply (f_equal String.length) in H.
      rewrite append_nil_l, append_length in H. cbn [String.length] in H. lia.
    + rewrite !append_cons in H. injection H as -> H. now rewrite (IH _ H).
Qed.

Lemma to_uint_nonnil (n : nat) : Nat.to_uint n <> Decimal.Nil.
Proof.
  intros H. pose proof (Unsigned.to_of (Nat.to_uint n)) as Hn.
  rewrite Unsigned.of_to, H in Hn. discriminate Hn.
Qed.

Lemma str_of_nat_inj (i j : nat) : str_of_nat i = str_of_nat j -> i = j.
Proof.
  unfold str_of_nat. intros H.
  apply (f_equal NilZero.uint_of_string) in H.
  rewrite !NilZero.usu in H by apply to_uint_nonnil.
  injection H as H. now apply Unsigned.to_uint_inj.
Qed.

Lemma temp_pdf_stem_inj (out : path) (i j : nat) :
  stem out +:+ "_temp_" +:+ str_of_nat i = stem out +:+ "_temp_" +:+ str_of_nat j ->
  i = j.
Proof.
  intros H. apply append_cancel_l in H.
  apply (append_cancel_l "_temp_") in H. now apply str_of_nat_inj.
Qed.

(** X7. The files of different rows never collide: in merge mode two
    rows have different temporary PDFs, hence different substituted
    Markdown and markup files; in per-row mode two rows without recipient
    field have different output names. *)
Theorem row_files_do_not_collide (out : path) (i j : nat) :
  (temp_pdf out i = temp_pdf out j -> i = j)
  /\ (forall sfx,
        with_suffix sfx (temp_pdf out i) = with_suffix sfx (temp_pdf out j) -> i = j)
  /\ (forall (r r' : row),
        row_get "recipient" r = None -> row_get "recipient" r' = None ->
        row_output_name (stem out) i r = row_output_name (stem out) j r' -> i = j).
Proof.
  destruct (temp_pdf_name out i) as (c & x & Hx & Hi).
  destruct (temp_pdf_name out j) as (c' & x' & Hx' & Hj).
  split; [| split].
  - rewrite Hi, Hj. intros H. apply (f_equal snd) in H. cbn [snd] in H.
    apply append_cancel_r in H.
    apply (temp_pdf_stem_inj out). rewrite <- Hx, <- Hx'. exact H.
  - intros sfx. rewrite Hi, Hj. unfold with_suffix; cbn [name parent fst snd].
    rewrite !append_cons, <- !append_cons, !name_stem_pdf.
    intros H. apply (f_equal (fun o => match o with Some p => snd p | None => "" end)) in H.
    cbn [snd] in H. apply append_cancel_r in H.
    apply (temp_pdf_stem_inj out). rewrite <- Hx, <- Hx'. exact H.
  - intros r r' Hr Hr'. unfold row_output_name. rewrite Hr, Hr'.
    intros H. apply (f_equal (fun o => match o with Ok nm => nm | Raise _ => "" end)) in H.
    apply append_cancel_l in H.
    apply (append_cancel_l "_") in H. apply append_cancel_r in H.
    apply str_of_nat_inj in H. lia.
Qed.

(* ===================================================================== *)
(** ** Further properties: one conversion *)
(* ===================================================================== *)

Lemma temp_typst_ne_temp_md (out tmd ttyp : path) :
  with_suffix ".temp.md" out = Some tmd ->
  with_suffix ".typ" out = Some ttyp -> ttyp <> tmd.
Proof.
  unfold with_suffix. destruct (name out); [discriminate |].
  intros [= <-] [= <-] H. apply (f_equal snd) in H. cbn [snd] in H.
  apply append_cancel_l in H. discriminate H.
Qed.

Section ConvertMore.

Context (E : environment).

(** X8. What [pandoc] is run on: whenever a conversion starts [pandoc],
    the substituted Markdown file holds the text of the input without its
    front matter, in which the placeholders have been replaced by the
    header fields updated with the overrides. *)
Theorem pandoc_input md out tpl ov bib csl w r w' tmd ttyp st snap :
  convert_markdown_to_pdf E md out tpl ov bib csl w = (r, w') ->
  with_suffix ".temp.md" out = Some tmd ->
  with_suffix ".typ" out = Some ttyp ->
  In (Run (pandoc_cmd tmd ttyp bib csl) st snap) (events_since w w') ->
  exists content d,
    files w !! md = Some content
    /\ header_of (yaml_safe_load E) content = PDict d
    /\ snap !! tmd
       = Some (substitute
                 (match truthy ov with Some o => dict_update d o | None => d end)
                 (strip_frontmatter content)).
Proof.
  intros H Htmd Httyp Hin.
  pose proof (temp_typst_ne_temp_md _ _ _ Htmd Httyp) as Hne.
  run_convert H.
  all: trace_hyp Hin.
  all: repeat match goal with
       | H : _ \/ _ |- _ => destruct H
       | H : False |- _ => destruct H
       | H : Print _ = Run _ _ _ |- _ => discriminate H
       | H : PrintErr _ = Run _ _ _ |- _ => discriminate H
       | H : Run (typst_cmd _ _) _ _ = Run (pandoc_cmd _ _ _ _) _ _ |- _ =>
           discriminate H
       | H : Run _ _ _ = Run _ _ _ |- _ => injection H; clear H; intros; subst
       end.
  all: simplify_eq.
  all: eexists _, _; (split; [reflexivity | split; [eassumption |]]); lookups.
Qed.

(** X9. What a conversion has done when it returns.  It returns [True]
    only after [pandoc] and then [typst] have run and exited with status
    0, and nothing else has been run: its trace is exactly the two
    announcements, the two runs and the final message.  When it returns
    [False], the last event of its trace is a printed error. *)
Theorem convert_outcomes md out tpl ov bib csl w (b : bool) w' :
  convert_markdown_to_pdf E md out tpl ov bib csl w = (Ok b, w') ->
  if b
  then exists tmd ttyp s1 s2,
         with_suffix ".temp.md" out = Some tmd
         /\ with_suffix ".typ" out = Some ttyp
         /\ events_since w w'
            = [Print (MsgConvertingToTypst (name md));
               Run (pandoc_cmd tmd ttyp bib csl) (Some 0%Z) s1; Print MsgConvertingToPdf;
               Run (typst_cmd ttyp out) (Some 0%Z) s2; Print (MsgCreated out)]
  else exists m, last (events_since w w') = Some (PrintErr m).
Proof.
  intros H. remember (Ok b) as r eqn:Hr. run_convert H.
  all: try match goal with
       | Hr : _ = Ok _ |- _ => first [discriminate Hr | injection Hr as <-]
       end.
  all: repeat match goal with
       | H : true && negb (_ =? 0)%Z = false |- _ =>
           apply negb_false_iff, Z.eqb_eq in H; rewrite ?H
       end.
  all: unfold events_since; cbn [log]; rewrite <- ?app_assoc;
       first [rewrite drop_app_length | rewrite drop_all]; cbn [app].
  all: try (eexists; reflexivity).
  all: eexists _, _, _, _; split; [reflexivity |]; split; reflexivity.
Qed.

(** X10. Without a bibliography the citation style is not used: the
    conversion is the same whether a CSL file is given or not. *)
Theorem csl_needs_bibliography md out tpl ov (csl : option path) w :
  convert_markdown_to_pdf E md out tpl ov None csl w
  = convert_markdown_to_pdf E md out tpl ov None None w.
Proof. reflexivity. Qed.

(** X11. A template that lies in the directory of the output is its own
    copy target: no conversion with such a template succeeds, and when the
    copy is refused for that reason the clean-up deletes the template
    itself. *)
Theorem template_in_output_directory md out tpl ov bib csl w r w' :
  convert_markdown_to_pdf E md out tpl ov bib csl w = (r, w') ->
  parent tpl = parent out ->
  r <> Ok true
  /\ (In (PrintErr (MsgError SameFileError)) (events_since w w') ->
      files w' !! tpl = None).
Proof.
  intros H Hdir.
  assert (Hsame : forall x, with_suffix ".typ" out = Some x ->
                            joinpath (parent x) (name tpl) = tpl).
  { intros x Hx. unfold with_suffix in Hx. destruct (name out); [discriminate |].
    injection Hx as <-. destruct tpl as [d n]. cbn [parent name fst snd] in *.
    now subst d. }
  run_convert H.
  all: try (pose proof (Hsame _ eq_refl) as Htpl; clear Hsame).
  all: split; [try discriminate | intros Hin; trace_hyp Hin].
  all: repeat match goal with
       | H : _ \/ _ |- _ => destruct H
       | H : False |- _ => destruct H
       | H : _ = PrintErr (MsgError SameFileError) |- _ =>
           first [discriminate H | clear H]
       end.
  all: try (apply bool_decide_eq_false in Heqb0; congruence).
  all: lookups.
Qed.

(** X12. A conversion touches no file but its output and its three
    artifacts (the substituted Markdown, the markup file and the copy of
    the template): every other file is the same after it as before. *)
Theorem convert_leaves_other_files md out tpl ov bib csl w r w' p :
  convert_markdown_to_pdf E md out tpl ov bib csl w = (r, w') ->
  p <> out -> ~ In p (artifacts out tpl) ->
  files w' !! p = files w !! p.
Proof. apply convert_frame. Qed.

End ConvertMore.

Section ConvertInputs.

Context (E : environment).

(** X13. A header that loads as something other than a mapping (a
    plain scalar, a list) makes the conversion fail: it returns [False],
    all it prints is the error, it runs no external program, and it
    changes no file other than the markup file and the substituted
    Markdown file of the output; a markup file that was already there is
    deleted. *)
Theorem unusable_header_fails_cleanly md out tpl ov bib csl w r w' content v :
  convert_markdown_to_pdf E md out tpl ov bib csl w = (r, w') ->
  files w !! md = Some content ->
  header_of (yaml_safe_load E) content = PValue v ->
  name out <> "" ->
  r = Ok false
  /\ events_since w w' = [PrintErr (MsgError AttributeError)]
  /\ (forall p, with_suffix ".typ" out <> Some p ->
                with_suffix ".temp.md" out <> Some p ->
                files w' !! p = files w !! p)
  /\ (forall p, with_suffix ".typ" out = Some p -> files w' !! p = None).
Proof.
  intros H Hmd Hv Hn.
  run_convert H.
  all: try congruence.
  all: try (unfold with_suffix in *; destruct (name out); congruence).
  all: split; [reflexivity |]; split;
       [ unfold events_since; cbn [log]; rewrite <- ?app_assoc;
         first [rewrite drop_app_length | rewrite drop_all]; reflexivity |].
  all: split; [intros p Hp1 Hp2 | intros p [= ->]]; lookups.
Qed.

Lemma typst_run_files md out tpl ov bib csl w r w' ttyp st snap :
  convert_markdown_to_pdf E md out tpl ov bib csl w = (r, w') ->
  with_suffix ".typ" out = Some ttyp ->
  ttyp <> out ->
  In (Run (typst_cmd ttyp out) st snap) (events_since w w') ->
  exists tmd s1 body tc content d,
    In (Run (pandoc_cmd tmd ttyp bib csl) (Some 0%Z) s1) (events_since w w')
    /\ s1 !! ttyp = Some body
    /\ s1 !! tpl = Some tc
    /\ files w !! md = Some content
    /\ header_of (yaml_safe_load E) content = PDict d
    /\ snap !! ttyp
       = Some (typst_content (name tpl) (template_func tc)
                 (join NL (build_params
                    (match truthy ov with Some o => dict_update d o | None => d end)))
                 body).
Proof.
  intros H Httyp Hne Hin.
  run_convert H.
  all: trace_hyp Hin.
  all: repeat match goal with
       | H : _ \/ _ |- _ => destruct H
       | H : False |- _ => destruct H
       | H : Print _ = Run _ _ _ |- _ => discriminate H
       | H : PrintErr _ = Run _ _ _ |- _ => discriminate H
       | H : Run (pandoc_cmd _ _ _ _) _ _ = Run (typst_cmd _ _) _ _ |- _ =>
           discriminate H
       | H : Run _ _ _ = Run _ _ _ |- _ => injection H; clear H; intros; subst
       end.
  all: simplify_eq.
  all: repeat match goal with
       | H : true && negb (_ =? 0)%Z = false |- _ =>
           cbn [andb] in H; apply negb_false_iff, Z.eqb_eq in H
       | H : <[?k := _]> _ !! ?k = Some _ |- _ =>
           rewrite lookup_insert_eq in H; injection H; clear H; intros; subst
       | H : delete _ _ !! _ = Some _ |- _ =>
           apply lookup_delete_Some in H as [? H]
       end.
  all: eexists _, _, _, _, _, _.
  all: split;
       [ unfold events_since; cbn [log]; rewrite <- ?app_assoc, drop_app_length;
         cbn [app In]; right; left;
         match goal with H : returncode _ = 0%Z |- _ => rewrite H end;
         reflexivity |].
  all: split; [eassumption |].
  all: split; [eassumption |].
  all: split; [reflexivity |].
  all: split; [eassumption |].
  all: lookups.
Qed.

(** X14. What [typst] is run on: whenever a conversion starts [typst]
    (the markup file not being the output itself), [pandoc] has exited
    with status 0 before, and the markup file holds the assembled
    document: the import of the template by its file name, the call of
    the entry point found in the template as [pandoc] left it, with the
    parameters built from the header fields updated with the overrides,
    and then the markup [pandoc] produced. *)
Theorem typst_input md out tpl ov bib csl w r w' ttyp st snap :
  convert_markdown_to_pdf E md out tpl ov bib csl w = (r, w') ->
  with_suffix ".typ" out = Some ttyp ->
  ttyp <> out ->
  In (Run (typst_cmd ttyp out) st snap) (events_since w w') ->
  exists tmd s1 body tc content d,
    In (Run (pandoc_cmd tmd ttyp bib csl) (Some 0%Z) s1) (events_since w w')
    /\ s1 !! ttyp = Some body
    /\ s1 !! tpl = Some tc
    /\ files w !! md = Some content
    /\ header_of (yaml_safe_load E) content = PDict d
    /\ snap !! ttyp
       = Some (typst_content (name tpl) (template_func tc)
                 (join NL (build_params
                    (match truthy ov with Some o => dict_update d o | None => d end)))
                 body).
Proof. apply typst_run_files. Qed.

(** X15. A template whose file name is that of the markup file (the
    output name with the suffix [.typ]) does not survive in the output
    directory: its copy and the markup file are one file, so when [typst]
    runs, the file the document imports under the template's name is the
    assembled document itself. *)
Theorem template_named_like_markup md out tpl ov bib csl w r w' ttyp st snap :
  convert_markdown_to_pdf E md out tpl ov bib csl w = (r, w') ->
  with_suffix ".typ" out = Some ttyp ->
  ttyp <> out ->
  name tpl = name ttyp ->
  In (Run (typst_cmd ttyp out) st snap) (events_since w w') ->
  exists func params body,
    snap !! joinpath (parent ttyp) (name tpl)
    = Some (typst_content (name tpl) func params body).
Proof.
  intros H Httyp Hne Hname Hin.
  destruct (typst_run_files _ _ _ _ _ _ _ _ _ _ _ _ H Httyp Hne Hin)
    as (tmd & s1 & body & tc & content & d & _ & _ & _ & _ & _ & Hsnap).
  assert (Hsame : joinpath (parent ttyp) (name tpl) = ttyp)
    by (rewrite Hname; now destruct ttyp).
  rewrite Hsame. eauto.
Qed.

End ConvertInputs.

(* ===================================================================== *)
(** ** Further properties: merging the row files *)
(* ===================================================================== *)

Lemma map_m_read_file (l : list path) : forall (w : world) r w',
  map_m read_file l w = (r, w') ->
  w' = w /\ forall e, r = Raise e -> e = FileNotFoundError.
Proof.
  induction l as [|p l IH]; intros w r w' H; cbn [map_m] in H.
  - injection H as <- <-. split; [reflexivity | discriminate].
  - unfold bind at 1 in H. unfold read_file at 1 in H.
    destruct (files w !! p).
    + unfold bind in H.
      destruct (map_m read_file l w) as [[ys | e] w1] eqn:Hm;
        apply IH in Hm as [-> He]; injection H as <- <-.
      * split; [reflexivity | discriminate].
      * split; [reflexivity | exact He].
    + injection H as <- <-. split; [reflexivity |]. now intros e [= <-].
Qed.

Lemma for_each_unlink (l : list path) : forall (w w' : world),
  for_each l unlink w = (Ok tt, w') ->
  log w' = log w
  /\ (forall p, In p l -> files w' !! p = None)
  /\ (forall p, ~ In p l -> files w' !! p = files w !! p).
Proof.
  induction l as [|q l IH]; intros w w' H; cbn [for_each] in H.
  - injection H as <-. split; [reflexivity |]. split; [intros p [] | reflexivity].
  - unfold bind in H. unfold unlink at 1 in H.
    destruct (files w !! q) eqn:Hq; [| discriminate H].
    destruct (IH _ _ H) as (Hl & Hin & Hout). cbn [log files] in *.
    split; [exact Hl |]. split.
    + intros p [<- | Hp].
      * destruct (in_dec (fun x y : path => decide (x = y)) q l) as [Hi | Hi];
          [now apply Hin |].
        rewrite (Hout _ Hi). apply lookup_delete_eq.
      * now apply Hin.
    + intros p Hp. cbn [In] in Hp.
      rewrite Hout by tauto. rewrite lookup_delete_ne by tauto. reflexivity.
Qed.

Ltac merge_step :=
  first
    [ run_step
    | match goal with
      | H : merge_with_pypdf2 _ _ _ _ = (_, _) |- _ => unfold merge_with_pypdf2 in H
      | H : merge_pdfs _ _ _ _ = (_, _) |- _ => unfold merge_pdfs in H
      | H : map_m read_file _ _ = (_, _) |- _ =>
          apply map_m_read_file in H; destruct H as [? ?]; subst
      end ].

Section MergeFacts.

Context (E : environment).
Variables (output_pdf : path) (temp_pdfs : list path).

Let pdfunite := pdfunite_cmd output_pdf temp_pdfs.
Let pdftk := pdftk_cmd output_pdf temp_pdfs.

(** X16. The merge providers are tried in a fixed order and the first
    success wins: [pdfunite] alone when it exits with status 0; [pdftk]
    only after [pdfunite] ran and exited with another status; PyPDF2 only
    after [pdfunite] could not be started (then [pdftk] is not tried at
    all) or [pdftk] failed or could not be started.  Without PyPDF2 the
    batch then reports that no merge tool was found and exits with status
    1. *)
Theorem merge_providers_in_order (w : world) (r : result unit) (w' : world) :
  merge_pdfs E output_pdf temp_pdfs w = (r, w') ->
  (exists s,
      events_since w w' = [Run pdfunite (Some 0%Z) s]
      /\ r = Ok tt /\ files w' = s)
  \/ (exists rc s s',
         rc <> 0%Z
         /\ events_since w w' = [Run pdfunite (Some rc) s; Run pdftk (Some 0%Z) s']
         /\ r = Ok tt /\ files w' = s')
  \/ (exists tried,
         (tried = [Run pdfunite None (files w)]
          \/ exists rc s st s',
               rc <> 0%Z /\ st <> Some 0%Z
               /\ tried = [Run pdfunite (Some rc) s; Run pdftk st s'])
         /\ ((pypdf2 E = None
              /\ events_since w w'
                 = tried ++ [PrintErr (MsgNoMergeTool (stem output_pdf))]
              /\ r = Raise (SystemExit 1))
             \/ (pypdf2 E <> None
                 /\ events_since w w'
                    = tried ++ [PyPdfMerge temp_pdfs output_pdf]))).
Proof.
  intros H. subst pdfunite pdftk.
  repeat merge_step.
  all: unfold events_since; cbn [log files]; rewrite <- ?app_assoc, drop_app_length.
  all: repeat match goal with
       | H : false && _ = true |- _ => discriminate H
       | H : false && _ = false |- _ => clear H
       | H : true && _ = _ |- _ => cbn [andb] in H
       | H : negb (_ =? 0)%Z = true |- _ =>
           apply negb_true_iff, Z.eqb_neq in H
       | H : negb (_ =? 0)%Z = false |- _ =>
           apply negb_false_iff, Z.eqb_eq in H; rewrite H
       end.
  all: try (left; eexists; repeat split; reflexivity).
  all: try (right; left; do 3 eexists; split; [eassumption |];
            repeat split; reflexivity).
  all: rewrite ?app_assoc.
  all: right; right; eexists; apply and_comm; split;
       [ first [ left; split; [reflexivity |]; split; reflexivity
               | right; split; [congruence | reflexivity] ] |].
  all: first [ left; reflexivity
             | right; do 4 eexists; apply and_comm; split;
               [ apply and_comm; split; [reflexivity | congruence]
               | assumption ] ].
Qed.

(** X17. Merging writes nothing but the output file: whatever provider
    runs and whether or not it succeeds, the row files it was given are
    neither deleted nor changed. *)
Theorem merge_writes_only_output (w : world) (r : result unit) (w' : world) (p : path) :
  merge_pdfs E output_pdf temp_pdfs w = (r, w') ->
  p <> output_pdf ->
  files w' !! p = files w !! p.
Proof.
  intros H Hp.
  repeat merge_step.
  all: lookups.
Qed.

(** No merge ends in [sys.exit] with a status other than 1. *)
Lemma merge_pdfs_tame (w : world) (r : result unit) (w' : world) :
  merge_pdfs E output_pdf temp_pdfs w = (r, w') -> tame r.
Proof.
  intros H. repeat merge_step.
  all: cbn [tame]; auto.
  all: match goal with
       | H : forall e, Raise ?x = Raise e -> _ |- _ => now rewrite (H _ eq_refl)
       end.
Qed.

End MergeFacts.

Lemma for_each_unlink_tame (l : list path) : forall (w : world) r w',
  for_each l unlink w = (r, w') -> tame r.
Proof.
  induction l as [|q l IH]; intros w r w' H; cbn [for_each] in H.
  - injection H as <- _. exact I.
  - unfold bind in H. unfold unlink at 1 in H.
    destruct (files w !! q); [exact (IH _ _ _ H) |].
    injection H as <- _. exact I.
Qed.

Lemma tame_exit_status {A} (r : result A) :
  tame r -> exit_status r = 0%Z \/ exit_status r = 1%Z.
Proof. destruct r as [a | []]; cbn; auto. Qed.

(** A conversion returns a boolean, or raises [ValueError] when the
    output path has no file name. *)
Lemma convert_result (E : environment) md out tpl ov bib csl w r w' :
  convert_markdown_to_pdf E md out tpl ov bib csl w = (r, w') ->
  (exists b, r = Ok b) \/ r = Raise ValueError.
Proof.
  intros H. destruct (string_dec (name out) "") as [Hn | Hn].
  - right. unfold convert_markdown_to_pdf, with_suffix_m, with_suffix in H.
    rewrite Hn in H. cbn in H. now injection H as <- _.
  - left. apply (proj2 (convert_log _ _ _ _ _ _ _ _ _ _ H)).
    rewrite (with_suffix_some _ _ Hn). discriminate.
Qed.

Lemma convert_tame (E : environment) md out tpl ov bib csl w r w' :
  convert_markdown_to_pdf E md out tpl ov bib csl w = (r, w') -> tame r.
Proof.
  intros H. destruct (convert_result _ _ _ _ _ _ _ _ _ _ H) as [[b ->] | ->]; exact I.
Qed.

Section MergeModeFacts.

Context (E : environment).
Variables (md out tpl : path) (bib csl : option path).

(** The row files of merge mode, in row order. *)
Lemma merge_rows_result (rows : list row) : forall i acc w l w1,
  merge_rows E md out tpl bib csl i rows acc w = (Ok l, w1) ->
  l = acc ++ map (temp_pdf out) (seq i (length rows)).
Proof.
  induction rows as [|row rows IH]; intros i acc w l w1 H.
  - injection H as <- _. now rewrite app_nil_r.
  - cbn [merge_rows] in H. unfold bind at 1 in H.
    destruct (convert_markdown_to_pdf _ _ _ _ _ _ _ w) as [[[|] | e] w0].
    + rewrite (IH _ _ _ _ _ H), <- app_assoc. reflexivity.
    + unfold bind, print_err, emit, sys_exit, raise in H. discriminate H.
    + discriminate H.
Qed.

(** X18. When merge mode ends without an exception, no temporary row PDF
    is left: the file of every row has been deleted after the merge. *)
Theorem merged_batch_leaves_no_row_file (rows : list row) (w w' : world) (i : nat) :
  merge_mode E md out tpl bib csl rows w = (Ok tt, w') ->
  i < length rows ->
  files w' !! temp_pdf out i = None.
Proof.
  intros H Hi. unfold merge_mode in H.
  apply bind_inv in H as [(l & w1 & H & Hrows) | (e & _ & [=])].
  apply bind_inv in H as [([] & w2 & H & _) | (e & _ & [=])].
  apply bind_inv in H as [([] & w3 & H & _) | (e & _ & [=])].
  apply bind_inv in H as [([] & w4 & H & Hdel) | (e & _ & [=])].
  injection H as <-. cbn [files].
  apply merge_rows_result in Hrows. cbn [app] in Hrows. subst l.
  apply (for_each_unlink _ _ _ Hdel).
  apply in_map, in_seq. lia.
Qed.

Lemma merge_rows_tame (rows : list row) : forall i acc w r w',
  merge_rows E md out tpl bib csl i rows acc w = (r, w') -> tame r.
Proof.
  induction rows as [|row rows IH]; intros i acc w r w' H.
  - injection H as <- _. exact I.
  - cbn [merge_rows] in H. unfold bind at 1 in H.
    destruct (convert_markdown_to_pdf _ _ _ _ _ _ _ w) as [[[|] | e] w0] eqn:Hc.
    + exact (IH _ _ _ _ _ H).
    + unfold bind, print_err, emit, sys_exit, raise in H.
      injection H as <- _. right. reflexivity.
    + injection H as <- _.
      now destruct (convert_result _ _ _ _ _ _ _ _ _ _ Hc) as [[b [=]] | [= ->]].
Qed.

Lemma each_row_tame (rows : list row) : forall i w r w',
  each_row E md out tpl bib csl i rows w = (r, w') -> tame r.
Proof.
  induction rows as [|row rows IH]; intros i w r w' H.
  - injection H as <- _. exact I.
  - cbn [each_row] in H. unfold bind at 1 in H. unfold row_output in H.
    destruct (row_output_name (stem out) i row) as [nm | e] eqn:Hn.
    + unfold ret at 1 in H. unfold bind at 1 in H.
      destruct (convert_markdown_to_pdf _ _ _ _ _ _ _ w) as [[b | e] w0] eqn:Hc.
      * unfold bind at 1 in H.
        destruct b; cbn [negb] in H; unfold print, print_err, emit in H;
          exact (IH _ _ _ _ H).
      * injection H as <- _. exact (convert_tame _ _ _ _ _ _ _ _ _ _ Hc).
    + unfold raise in H. injection H as <- _.
      unfold row_output_name in Hn.
      destruct (row_get "recipient" row) as [[? |] |]; try discriminate.
      injection Hn as <-. exact I.
Qed.

Lemma merge_mode_tame (rows : list row) (w : world) (r : result unit) (w' : world) :
  merge_mode E md out tpl bib csl rows w = (r, w') -> tame r.
Proof.
  intros H. unfold merge_mode in H.
  apply bind_inv in H as [(l & w1 & H & _) | (e & H & ->)];
    [| exact (merge_rows_tame _ _ _ _ _ _ H)].
  apply bind_inv in H as [([] & w2 & H & _) | (e & H & ->)];
    [| discriminate H].
  apply bind_inv in H as [([] & w3 & H & _) | (e & H & ->)];
    [| exact (merge_pdfs_tame _ _ _ _ _ _ H)].
  apply bind_inv in H as [([] & w4 & H & _) | (e & H & ->)];
    [| exact (for_each_unlink_tame _ _ _ _ H)].
  injection H as <- _. exact I.
Qed.

End MergeModeFacts.

(* ===================================================================== *)
(** ** Further properties: the command line driver *)
(* ===================================================================== *)

(** One step of a run of the driver recorded in a hypothesis. *)
Ltac main_step :=
  first
    [ run_step
    | match goal with
      | H : require_command _ _ _ = (_, _) |- _ => unfold require_command in H
      | H : require_file _ _ _ = (_, _) |- _ => unfold require_file in H
      | H : require_optional_file _ _ _ = (_, _) |- _ =>
          unfold require_optional_file in H
      | H : check_command_exists _ _ _ = (_, _) |- _ =>
          unfold check_command_exists in H
      | H : mail_merge _ _ _ _ _ _ _ _ _ = (_, _) |- _ => unfold mail_merge in H
      | H : main _ _ _ = (_, _) |- _ => unfold main in H
      end ].

Ltac run_main := repeat main_step.

Section DriverFacts.

Context (E : environment).

Lemma leave_none (o : option string) (fs : gmap path string) :
  leave None o fs = fs.
Proof. reflexivity. Qed.

(** X19. Whenever the check for a program returns, it has changed no
    file and has run [which] on the command once, and its answer is
    [True] exactly when [which] could be started and exited with status
    0, a [which] that is itself missing counting as a missing program. *)
Theorem check_command_exists_answers (command : string) (w : world) (b : bool)
    (w' : world) :
  check_command_exists E command w = (Ok b, w') ->
  b = has_tool E command (files w)
  /\ files w' = files w
  /\ exists st, events_since w w' = [Run ["which"; command] st (files w)].
Proof.
  unfold check_command_exists, subprocess_run, has_tool.
  destruct (exec E ["which"; command] (files w)) as [c |].
  - rewrite leave_none. cbn [andb].
    destruct (returncode c =? 0)%Z; cbn [negb]; intros H;
      injection H as Hb Hw; subst b w';
      (split; [reflexivity |]); (split; [reflexivity |]);
      eexists; unfold events_since; cbn [log]; now rewrite drop_app_length.
  - intros H. injection H as Hb Hw. subst b w'.
    split; [reflexivity |]. split; [reflexivity |].
    eexists. unfold events_since; cbn [log]. now rewrite drop_app_length.
Qed.

(** X20. Nothing is converted unless everything is in place: when
    [typst] or [pandoc] is not found, or the Markdown file, the template,
    or a bibliography, CSL or CSV file named on the command line does not
    exist, the process ends with status 1, no file has been changed, and
    nothing has been run but [which]. *)
Theorem main_needs_prerequisites (a : args) (w : world) :
  prerequisites E a (files w) = false ->
  exit_status (fst (main E a w)) = 1%Z
  /\ files (snd (main E a w)) = files w
  /\ forallb check_event (events_since w (snd (main E a w))) = true.
Proof.
  intros Hpre.
  destruct (main E a w) as [r w'] eqn:H. cbn [fst snd].
  run_main.
  all: rewrite ?leave_none in *; cbn [files log] in *.
  all: try (split; [reflexivity |]; split; [reflexivity |];
            unfold events_since; cbn [log files];
            rewrite <- ?app_assoc, drop_app_length; reflexivity).
  all: exfalso; unfold prerequisites, has_tool, optional_file_exists,
         file_exists in Hpre.
  all: repeat match goal with
       | H : exec _ _ _ = _ |- _ => rewrite H in Hpre; clear H
       | H : bool_decide _ = true |- _ => rewrite H in Hpre; clear H
       | H : arg_bibliography _ = _ |- _ => rewrite H in Hpre; clear H
       | H : arg_csl _ = _ |- _ => rewrite H in Hpre; clear H
       | H : arg_csv _ = _ |- _ => rewrite H in Hpre; clear H
       | H : true && negb ?b = false |- _ =>
           destruct b; [clear H | discriminate H]
       end.
  all: discriminate Hpre.
Qed.

Lemma require_command_ok (command : string) (w : world) :
  has_tool E command (files w) = true ->
  require_command E command w
  = (Ok tt, {| files := files w;
               log := log w ++ [Run ["which"; command] (Some 0%Z) (files w)] |}).
Proof.
  unfold has_tool, require_command, bind, check_command_exists, subprocess_run.
  destruct (exec E ["which"; command] (files w)) as [c |]; [| discriminate].
  intros H. rewrite leave_none. cbn [andb]. rewrite H. cbn [negb].
  apply Z.eqb_eq in H. rewrite H. reflexivity.
Qed.

Lemma require_file_exists (what : string) (p : path) (w : world) :
  file_exists (files w) p = true -> require_file what p w = (Ok tt, w).
Proof.
  unfold file_exists. intros H. apply bool_decide_eq_true in H as [c Hc].
  exact (require_file_ok _ _ _ _ Hc).
Qed.

Lemma require_optional_file_exists (what : string) (p : option path) (w : world) :
  optional_file_exists (files w) p = true ->
  require_optional_file what p w = (Ok tt, w).
Proof.
  destruct p as [q |]; [apply require_file_exists | reflexivity].
Qed.

(** With every prerequisite in place, [main] is the two tool checks
    followed by the batch or by the single conversion. *)
Lemma main_checked (a : args) (w : world) (out : path) :
  prerequisites E a (files w) = true ->
  output_of a = Some out ->
  main E a w =
  match arg_csv a with
  | Some csv_path =>
      mail_merge E (arg_markdown_file a) out (arg_template a)
        (arg_bibliography a) (arg_csl a) csv_path (arg_merge_output a) (checked w)
  | None =>
      bind (convert_markdown_to_pdf E (arg_markdown_file a) out (arg_template a)
              None (arg_bibliography a) (arg_csl a))
           (fun success => sys_exit (if success then 0%Z else 1%Z)) (checked w)
  end.
Proof.
  intros Hpre Hout. unfold prerequisites in Hpre.
  apply andb_true_iff in Hpre as [Hpre Hcsv].
  apply andb_true_iff in Hpre as [Hpre Hcsl].
  apply andb_true_iff in Hpre as [Hpre Hbib].
  apply andb_true_iff in Hpre as [Hpre Htpl].
  apply andb_true_iff in Hpre as [Hpre Hmd].
  apply andb_true_iff in Hpre as [Htypst Hpandoc].
  unfold main.
  rewrite (bind_ok _ _ _ _ _ (require_command_ok _ _ Htypst)).
  rewrite (bind_ok _ _ _ tt (checked w));
    [| rewrite require_command_ok by assumption;
       unfold checked; cbn [files log]; now rewrite <- app_assoc].
  rewrite (bind_ok _ _ _ _ _ (require_file_exists _ _ (checked w) Hmd)).
  rewrite (bind_ok _ _ _ out (checked w)).
  2: { unfold output_of in Hout. destruct (arg_output a); [now injection Hout as -> |].
       unfold with_suffix_m. now rewrite Hout. }
  rewrite (bind_ok _ _ _ _ _ (require_file_exists _ _ (checked w) Htpl)).
  rewrite (bind_ok _ _ _ _ _ (require_optional_file_exists _ _ (checked w) Hbib)).
  rewrite (bind_ok _ _ _ _ _ (require_optional_file_exists _ _ (checked w) Hcsl)).
  destruct (arg_csv a) as [csv_path |].
  - reflexivity.
  - rewrite (bind_ok _ _ _ _ _ (require_optional_file_exists _ _ (checked w) Hcsl)).
    reflexivity.
Qed.

(** X21. With everything in place and no CSV file, the command line
    driver runs the two tool checks and then exactly one conversion, of
    the Markdown file to the output path (the [--output] option, or the
    Markdown path with the suffix [.pdf]), without overrides; the process
    ends in the state that conversion left, with status 0 exactly when
    the conversion returned [True]. *)
Theorem single_document_run (a : args) (w : world) (out : path) :
  prerequisites E a (files w) = true ->
  arg_csv a = None ->
  output_of a = Some out ->
  let conversion :=
    convert_markdown_to_pdf E (arg_markdown_file a) out (arg_template a) None
      (arg_bibliography a) (arg_csl a) (checked w) in
  snd (main E a w) = snd conversion
  /\ (exit_status (fst (main E a w)) = 0%Z <-> fst conversion = Ok true).
Proof.
  intros Hpre Hcsv Hout conversion. subst conversion.
  rewrite (main_checked _ _ _ Hpre Hout), Hcsv. unfold bind.
  destruct (convert_markdown_to_pdf _ _ _ _ _ _ _ _) as [r w'] eqn:H.
  destruct (convert_result _ _ _ _ _ _ _ _ _ _ H) as [[[|] ->] | ->];
    cbn; (split; [reflexivity |]); split; intros; congruence.
Qed.

(** X22. With everything in place and a CSV file, the command line
    driver is the two tool checks followed by the batch over that file,
    with the paths and the merge flag of the command line. *)
Theorem batch_run (a : args) (w : world) (out csv_path : path) :
  prerequisites E a (files w) = true ->
  arg_csv a = Some csv_path ->
  output_of a = Some out ->
  main E a w =
  mail_merge E (arg_markdown_file a) out (arg_template a)
    (arg_bibliography a) (arg_csl a) csv_path (arg_merge_output a) (checked w).
Proof.
  intros Hpre Hcsv Hout. now rewrite (main_checked _ _ _ Hpre Hout), Hcsv.
Qed.

(** X23. A CSV file without data rows is fatal in both batch modes: the
    error is printed and the process exits with status 1, before any row
    is converted and without any file being changed. *)
Theorem empty_csv_is_fatal md out tpl bib csl (csv_path : path) (merge : bool)
    (text : string) (w : world) :
  files w !! csv_path = Some text ->
  csv_rows E text = [] ->
  mail_merge E md out tpl bib csl csv_path merge w
  = (Raise (SystemExit 1),
     {| files := files w; log := log w ++ [PrintErr MsgCsvEmpty] |}).
Proof.
  intros Hf Hrows. unfold mail_merge.
  rewrite (bind_ok _ _ _ _ _ (require_file_ok _ _ _ _ Hf)).
  rewrite (bind_ok _ _ _ _ _ (read_file_ok _ _ _ Hf)).
  rewrite Hrows. reflexivity.
Qed.

(** X24. Once [argparse] has accepted the command line, the driver never
    returns normally: it always ends through [sys.exit] or an uncaught
    exception, and the exit status of the process is 0 or 1 whatever the
    parsed arguments, the files and the external programs are. *)
Theorem exit_status_zero_or_one (a : args) (w : world) :
  (exists e, fst (main E a w) = Raise e)
  /\ (exit_status (fst (main E a w)) = 0%Z \/ exit_status (fst (main E a w)) = 1%Z).
Proof.
  destruct (main E a w) as [r w'] eqn:H. cbn [fst].
  run_main.
  all: split; [eexists; reflexivity | apply tame_exit_status].
  all: cbn [tame]; auto.
  all: match goal with
       | |- context [if ?b then _ else _] => destruct b; auto
       | H : merge_mode _ _ _ _ _ _ _ _ = _ |- _ =>
           exact (merge_mode_tame _ _ _ _ _ _ _ _ _ _ H)
       | H : each_row _ _ _ _ _ _ _ _ _ = _ |- _ =>
           exact (each_row_tame _ _ _ _ _ _ _ _ _ _ _ H)
       | H : convert_markdown_to_pdf _ _ _ _ _ _ _ _ = _ |- _ =>
           exact (convert_tame _ _ _ _ _ _ _ _ _ _ H)
       end.
Qed.

End DriverFacts.

(* ===================================================================== *)
(** ** The further properties on the sample project *)
(* ===================================================================== *)

(** An event is in a trace: decided by evaluation. *)
Ltac in_trace := apply list_elem_of_In; apply (bool_decide_unpack _); vm_compute; exact I.


Lemma substitute_strings_only_witness :
  substitute [("pages", VInt 3); ("draft", VBool true)] "{{pages}} {{draft}}"
  = "{{pages}} {{draft}}".
Proof.
  apply (proj2 (substitute_strings_only [("pages", VInt 3); ("draft", VBool true)]
                  "{{pages}} {{draft}}")).
  reflexivity.
Defined.

Lemma escaping_round_trip_witness :
  unescape (escape_short ("a\" +:+ DQ +:+ "b")) = "a\" +:+ DQ +:+ "b"
  /\ "a\b" = "a\b".
Proof.
  split.
  - apply (proj1 escaping_round_trip).
  - apply (proj1 (proj2 (proj2 escaping_round_trip))). reflexivity.
Defined.

Lemma overrides_take_precedence_witness :
  dict_get "title" (dict_update [("title", VStr "Test")] (dict_of_row Sample.ann))
  = Some (VStr "Test")
  /\ NoDup (keys (dict_update [("title", VStr "Test")] (dict_of_row Sample.ann))).
Proof.
  destruct (overrides_take_precedence [("title", VStr "Test")] (dict_of_row Sample.ann))
    as (Hget & _ & Hnd).
  split.
  - rewrite Hget. reflexivity.
  - apply Hnd. apply NoDup_singleton.
Defined.

Lemma row_files_do_not_collide_witness :
  temp_pdf Sample.out 1 <> temp_pdf Sample.out 2.
Proof.
  intros H.
  assert (H12 : 1 = 2)
    by exact (proj1 (row_files_do_not_collide Sample.out 1 2) H).
  discriminate H12.
Defined.

Lemma pandoc_input_witness :
  exists content d,
    files Sample.start !! Sample.md = Some content
    /\ header_of (yaml_safe_load (Sample.env None)) content = PDict d
    /\ Cases.pandoc_done !! Sample.temp_md_path
       = Some (substitute d (strip_frontmatter content)).
Proof.
  assert (Hrun : convert_markdown_to_pdf (Sample.env None) Sample.md Sample.out
                   Sample.tpl None None None Sample.start
                 = (fst Sample.run_ok, snd Sample.run_ok))
    by apply surjective_pairing.
  assert (Hmd : with_suffix ".temp.md" Sample.out = Some Sample.temp_md_path)
    by reflexivity.
  assert (Htyp : with_suffix ".typ" Sample.out = Some Sample.temp_typst_path)
    by reflexivity.
  assert (Hin : In (Run (pandoc_cmd Sample.temp_md_path Sample.temp_typst_path None None)
                      (Some 0%Z) Cases.pandoc_done)
                   (events_since Sample.start (snd Sample.run_ok)))
    by in_trace.
  exact (pandoc_input (Sample.env None) _ _ _ _ _ _ _ _ _ _ _ _ _ Hrun Hmd Htyp Hin).
Defined.

Lemma convert_outcomes_witness :
  exists tmd ttyp s1 s2,
    with_suffix ".temp.md" Sample.out = Some tmd
    /\ with_suffix ".typ" Sample.out = Some ttyp
    /\ events_since Sample.start (snd Sample.run_ok)
       = [Print (MsgConvertingToTypst (name Sample.md));
          Run (pandoc_cmd tmd ttyp None None) (Some 0%Z) s1; Print MsgConvertingToPdf;
          Run (typst_cmd ttyp Sample.out) (Some 0%Z) s2; Print (MsgCreated Sample.out)].
Proof.
  assert (Hr : fst Sample.run_ok = Ok true) by (vm_compute; reflexivity).
  assert (Hrun : convert_markdown_to_pdf (Sample.env None) Sample.md Sample.out
                   Sample.tpl None None None Sample.start
                 = (Ok true, snd Sample.run_ok))
    by (rewrite <- Hr; apply surjective_pairing).
  exact (convert_outcomes (Sample.env None) _ _ _ _ _ _ _ true _ Hrun).
Defined.

Lemma template_in_output_directory_witness :
  fst (convert_markdown_to_pdf (Sample.env None) Sample.md Sample.out
         Cases.local_tpl None None None Cases.start) <> Ok true
  /\ files (snd (convert_markdown_to_pdf (Sample.env None) Sample.md Sample.out
                   Cases.local_tpl None None None Cases.start))
     !! Cases.local_tpl = None.
Proof.
  pose (run := convert_markdown_to_pdf (Sample.env None) Sample.md Sample.out
                 Cases.local_tpl None None None Cases.start).
  assert (Hrun : convert_markdown_to_pdf (Sample.env None) Sample.md Sample.out
                   Cases.local_tpl None None None Cases.start
                 = (fst run, snd run))
    by apply surjective_pairing.
  assert (Hdir : parent Cases.local_tpl = parent Sample.out) by reflexivity.
  assert (Hin : In (PrintErr (MsgError SameFileError))
                   (events_since Cases.start (snd run)))
    by in_trace.
  destruct (template_in_output_directory (Sample.env None) _ _ _ _ _ _ _ _ _ Hrun Hdir)
    as [Hr Hgone].
  split; [exact Hr | exact (Hgone Hin)].
Defined.

Lemma convert_leaves_other_files_witness :
  files (snd Sample.run_ok) !! Sample.csv = files Sample.start !! Sample.csv.
Proof.
  assert (Hrun : convert_markdown_to_pdf (Sample.env None) Sample.md Sample.out
                   Sample.tpl None None None Sample.start
                 = (fst Sample.run_ok, snd Sample.run_ok))
    by apply surjective_pairing.
  assert (Hout : Sample.csv <> Sample.out) by discriminate.
  assert (Hart : ~ In Sample.csv (artifacts Sample.out Sample.tpl))
    by (vm_compute; intros [H | [H | [H | []]]]; discriminate H).
  exact (convert_leaves_other_files (Sample.env None) _ _ _ _ _ _ _ _ _ _ Hrun Hout Hart).
Defined.

Lemma unusable_header_fails_cleanly_witness :
  fst (convert_markdown_to_pdf (Sample.env None) Cases.note Sample.out Sample.tpl
         None None None Cases.start) = Ok false
  /\ events_since Cases.start
       (snd (convert_markdown_to_pdf (Sample.env None) Cases.note Sample.out
               Sample.tpl None None None Cases.start))
     = [PrintErr (MsgError AttributeError)].
Proof.
  pose (run := convert_markdown_to_pdf (Sample.env None) Cases.note Sample.out
                 Sample.tpl None None None Cases.start).
  assert (Hrun : convert_markdown_to_pdf (Sample.env None) Cases.note Sample.out
                   Sample.tpl None None None Cases.start
                 = (fst run, snd run))
    by apply surjective_pairing.
  assert (Hmd : files Cases.start !! Cases.note = Some Cases.scalar_header)
    by reflexivity.
  assert (Hv : header_of (yaml_safe_load (Sample.env None)) Cases.scalar_header
               = PValue (VStr "just text"))
    by reflexivity.
  assert (Hn : name Sample.out <> "") by discriminate.
  destruct (unusable_header_fails_cleanly (Sample.env None) _ _ _ _ _ _ _ _ _ _ _
              Hrun Hmd Hv Hn) as (Hr & Hev & _).
  split; [exact Hr | exact Hev].
Defined.

Lemma typst_input_witness :
  exists tmd s1 body tc content d,
    In (Run (pandoc_cmd tmd Cases.report_typ None None) (Some 0%Z) s1)
       (events_since Sample.start (snd Cases.run_report))
    /\ s1 !! Cases.report_typ = Some body
    /\ s1 !! Sample.tpl = Some tc
    /\ files Sample.start !! Sample.md = Some content
    /\ header_of (yaml_safe_load (Sample.env None)) content = PDict d
    /\ Cases.report_typst_done !! Cases.report_typ
       = Some (typst_content (name Sample.tpl) (template_func tc)
                 (join NL (build_params d)) body).
Proof.
  assert (Hrun : convert_markdown_to_pdf (Sample.env None) Sample.md Cases.report
                   Sample.tpl None None None Sample.start
                 = (fst Cases.run_report, snd Cases.run_report))
    by apply surjective_pairing.
  assert (Htyp : with_suffix ".typ" Cases.report = Some Cases.report_typ)
    by reflexivity.
  assert (Hne : Cases.report_typ <> Cases.report) by discriminate.
  assert (Hin : In (Run (typst_cmd Cases.report_typ Cases.report) (Some 0%Z)
                      Cases.report_typst_done)
                   (events_since Sample.start (snd Cases.run_report)))
    by in_trace.
  exact (typst_input (Sample.env None) _ _ _ _ _ _ _ _ _ _ _ _ Hrun Htyp Hne Hin).
Defined.

Lemma template_named_like_markup_witness :
  exists func params body,
    Cases.typst_done !! joinpath (parent Sample.temp_typst_path) (name Sample.tpl)
    = Some (typst_content (name Sample.tpl) func params body).
Proof.
  assert (Hrun : convert_markdown_to_pdf (Sample.env None) Sample.md Sample.out
                   Sample.tpl None None None Sample.start
                 = (fst Sample.run_ok, snd Sample.run_ok))
    by apply surjective_pairing.
  assert (Htyp : with_suffix ".typ" Sample.out = Some Sample.temp_typst_path)
    by reflexivity.
  assert (Hne : Sample.temp_typst_path <> Sample.out) by discriminate.
  assert (Hname : name Sample.tpl = name Sample.temp_typst_path) by reflexivity.
  assert (Hin : In (Run (typst_cmd Sample.temp_typst_path Sample.out) (Some 0%Z)
                      Cases.typst_done)
                   (events_since Sample.start (snd Sample.run_ok)))
    by in_trace.
  exact (template_named_like_markup (Sample.env None) _ _ _ _ _ _ _ _ _ _ _ _
           Hrun Htyp Hne Hname Hin).
Defined.

Lemma merge_providers_in_order_witness :
  (exists s,
      events_since Sample.start (snd Cases.merge_two)
      = [Run (pdfunite_cmd Sample.out Cases.row_pdfs) (Some 0%Z) s]
      /\ fst Cases.merge_two = Ok tt /\ files (snd Cases.merge_two) = s)
  \/ (exists rc s s',
         rc <> 0%Z
         /\ events_since Sample.start (snd Cases.merge_two)
            = [Run (pdfunite_cmd Sample.out Cases.row_pdfs) (Some rc) s;
               Run (pdftk_cmd Sample.out Cases.row_pdfs) (Some 0%Z) s']
         /\ fst Cases.merge_two = Ok tt /\ files (snd Cases.merge_two) = s')
  \/ (exists tried,
         (tried = [Run (pdfunite_cmd Sample.out Cases.row_pdfs) None (files Sample.start)]
          \/ exists rc s st s',
               rc <> 0%Z /\ st <> Some 0%Z
               /\ tried = [Run (pdfunite_cmd Sample.out Cases.row_pdfs) (Some rc) s;
                           Run (pdftk_cmd Sample.out Cases.row_pdfs) st s'])
         /\ ((pypdf2 (Sample.env None) = None
              /\ events_since Sample.start (snd Cases.merge_two)
                 = tried ++ [PrintErr (MsgNoMergeTool (stem Sample.out))]
              /\ fst Cases.merge_two = Raise (SystemExit 1))
             \/ (pypdf2 (Sample.env None) <> None
                 /\ events_since Sample.start (snd Cases.merge_two)
                    = tried ++ [PyPdfMerge Cases.row_pdfs Sample.out]))).
Proof.
  assert (Hrun : merge_pdfs (Sample.env None) Sample.out Cases.row_pdfs Sample.start
                 = (fst Cases.merge_two, snd Cases.merge_two))
    by apply surjective_pairing.
  exact (merge_providers_in_order (Sample.env None) _ _ _ _ _ Hrun).
Defined.

Lemma merge_writes_only_output_witness :
  files (snd Cases.merge_two) !! Sample.md = files Sample.start !! Sample.md.
Proof.
  assert (Hrun : merge_pdfs (Sample.env None) Sample.out Cases.row_pdfs Sample.start
                 = (fst Cases.merge_two, snd Cases.merge_two))
    by apply surjective_pairing.
  assert (Hne : Sample.md <> Sample.out) by discriminate.
  exact (merge_writes_only_output (Sample.env None) _ _ _ _ _ _ Hrun Hne).
Defined.

Lemma merged_batch_leaves_no_row_file_witness :
  files (snd Cases.merge_all) !! temp_pdf Sample.out 2 = None.
Proof.
  assert (Hr : fst Cases.merge_all = Ok tt) by (vm_compute; reflexivity).
  assert (Hrun : merge_mode (Sample.env None) Sample.md Sample.out Sample.tpl
                   None None Sample.people Sample.start
                 = (Ok tt, snd Cases.merge_all))
    by (rewrite <- Hr; apply surjective_pairing).
  assert (Hi : 2 < length Sample.people) by (cbn; lia).
  exact (merged_batch_leaves_no_row_file (Sample.env None) _ _ _ _ _ _ _ _ _ Hrun Hi).
Defined.

Lemma check_command_exists_answers_witness :
  true = has_tool (Sample.env None) "typst" (files Sample.start)
  /\ files (snd (check_command_exists (Sample.env None) "typst" Sample.start))
     = files Sample.start.
Proof.
  assert (Hr : fst (check_command_exists (Sample.env None) "typst" Sample.start)
               = Ok true) by (vm_compute; reflexivity).
  assert (Hrun : check_command_exists (Sample.env None) "typst" Sample.start
                 = (Ok true,
                    snd (check_command_exists (Sample.env None) "typst" Sample.start)))
    by (rewrite <- Hr; apply surjective_pairing).
  destruct (check_command_exists_answers (Sample.env None) _ _ _ _ Hrun)
    as (Hb & Hf & _).
  split; [exact Hb | exact Hf].
Defined.

Lemma main_needs_prerequisites_witness :
  exit_status (fst (main (Sample.env None) Cases.missing_bibliography Sample.start))
  = 1%Z
  /\ files (snd (main (Sample.env None) Cases.missing_bibliography Sample.start))
     = files Sample.start.
Proof.
  assert (Hpre : prerequisites (Sample.env None) Cases.missing_bibliography
                   (files Sample.start) = false)
    by (vm_compute; reflexivity).
  destruct (main_needs_prerequisites (Sample.env None) _ _ Hpre) as (Hexit & Hfiles & _).
  split; [exact Hexit | exact Hfiles].
Defined.

Lemma single_document_run_witness :
  exit_status (fst (main (Sample.env None) Cases.single Sample.start)) = 0%Z
  <-> fst (convert_markdown_to_pdf (Sample.env None) Sample.md ("docs", "letter.pdf")
             Sample.tpl None None None (checked Sample.start)) = Ok true.
Proof.
  assert (Hpre : prerequisites (Sample.env None) Cases.single (files Sample.start) = true)
    by (vm_compute; reflexivity).
  assert (Hcsv : arg_csv Cases.single = None) by reflexivity.
  assert (Hout : output_of Cases.single = Some ("docs", "letter.pdf")) by reflexivity.
  exact (proj2 (single_document_run (Sample.env None) _ _ _ Hpre Hcsv Hout)).
Defined.

Lemma batch_run_witness :
  main (Sample.env None) Cases.batch Sample.start
  = mail_merge (Sample.env None) Sample.md Sample.out Sample.tpl None None
      Sample.csv true (checked Sample.start).
Proof.
  assert (Hpre : prerequisites (Sample.env None) Cases.batch (files Sample.start) = true)
    by (vm_compute; reflexivity).
  assert (Hcsv : arg_csv Cases.batch = Some Sample.csv) by reflexivity.
  assert (Hout : output_of Cases.batch = Some Sample.out) by reflexivity.
  exact (batch_run (Sample.env None) _ _ _ _ Hpre Hcsv Hout).
Defined.

Lemma empty_csv_is_fatal_witness :
  mail_merge (Sample.env None) Sample.md Sample.out Sample.tpl None None
    Cases.blank false Cases.start
  = (Raise (SystemExit 1),
     {| files := files Cases.start;
        log := log Cases.start ++ [PrintErr MsgCsvEmpty] |}).
Proof.
  assert (Hf : files Cases.start !! Cases.blank = Some "none") by reflexivity.
  assert (Hrows : csv_rows (Sample.env None) "none" = []) by reflexivity.
  exact (empty_csv_is_fatal (Sample.env None) _ _ _ _ _ _ _ _ _ Hf Hrows).
Defined.

(* ===================================================================== *)
(** ** Further properties: the rows of per-row mode *)
(* ===================================================================== *)

Section PerRowFacts.

Context (E : environment).
Variables (md out tpl : path) (bib csl : option path).

(** Rows whose loop ends normally are passed, and the loop goes on with
    the rest. *)
Lemma each_row_app (pre rest : list row) : forall i w w0,
  each_row E md out tpl bib csl i pre w = (Ok tt, w0) ->
  each_row E md out tpl bib csl i (pre ++ rest) w
  = each_row E md out tpl bib csl (i + length pre) rest w0.
Proof.
  induction pre as [|r pre IH]; intros i w w0 H.
  - injection H as <-. now rewrite Nat.add_0_r.
  - cbn [each_row app length] in *.
    apply bind_inv in H as [(o & w1 & H & Ho) | (e & _ & [=])].
    apply bind_inv in H as [(b & w2 & H & Hc) | (e & _ & [=])].
    apply bind_inv in H as [([] & w3 & H & Hp) | (e & _ & [=])].
    rewrite (bind_ok _ _ _ _ _ Ho), (bind_ok _ _ _ _ _ Hc), (bind_ok _ _ _ _ _ Hp).
    rewrite (IH _ _ _ H). f_equal. lia.
Qed.

(** X25. In per-row mode, for a CSV file in which no recipient cell is
    missing, every row is converted and reported whatever happened to the
    rows before it, and the process exits with status 0: the row at any
    position is converted to its own output path with its cells as
    overrides, the events of that conversion are in the trace, its report
    (generated, or failed to generate) follows them, and as many rows
    have been reported before it and after it as the file has before it
    and after it. *)
Theorem per_row_mode_converts_every_row
    (csv_path : path) (text : string) (w : world) (pre : list row) (r : row)
    (post : list row) :
  files w !! csv_path = Some text ->
  csv_rows E text = pre ++ r :: post ->
  forallb recipient_is_text (csv_rows E text) = true ->
  fst (mail_merge E md out tpl bib csl csv_path false w) = Raise (SystemExit 0)
  /\ exists nm w0 b w1 before after,
       row_output_name (stem out) (length pre) r = Ok nm
       /\ convert_markdown_to_pdf E md (joinpath (parent out) nm) tpl
            (Some (dict_of_row r)) bib csl w0 = (Ok b, w1)
       /\ events_since w (snd (mail_merge E md out tpl bib csl csv_path false w))
          = before ++ events_since w0 w1
            ++ row_report_event (joinpath (parent out) nm) b :: after
       /\ length (row_reports before) = length pre
       /\ length (row_reports after) = length post.
Proof.
  intros Hcsv Hrows Htext. rewrite Hrows in Htext.
  rewrite forallb_app in Htext. apply andb_true_iff in Htext as [Hpre Hrest].
  cbn [forallb] in Hrest. apply andb_true_iff in Hrest as [Hr Hpost].
  destruct (each_row_trace E md out tpl bib csl pre 0
              (announced w (pre ++ r :: post)) Hpre)
    as (w0 & evs0 & Hrun0 & Hl0 & Hreps0).
  destruct (row_output_ok out (length pre) r w0 Hr) as (nm & Hnm & Hout).
  destruct (convert_markdown_to_pdf E md (joinpath (parent out) nm) tpl
              (Some (dict_of_row r)) bib csl w0) as [res w1] eqn:Hc.
  destruct (convert_log _ _ _ _ _ _ _ _ _ _ Hc) as [(evs & Hl & Hev) Hret].
  destruct Hret as [b ->].
  { rewrite (with_suffix_some ".typ" (joinpath (parent out) nm)
               (row_output_name_nonempty _ _ _ _ Hnm)). discriminate. }
  set (o := joinpath (parent out) nm) in *.
  set (w2 := {| files := files w1; log := log w1 ++ [row_report_event o b] |}).
  destruct (each_row_trace E md out tpl bib csl post (S (length pre)) w2 Hpost)
    as (w' & evs' & Hrun' & Hl' & Hreps').
  assert (Hloop : each_row E md out tpl bib csl 0 (pre ++ r :: post)
                    (announced w (pre ++ r :: post)) = (Ok tt, w')).
  { rewrite (each_row_app _ _ _ _ _ Hrun0). cbn [Nat.add each_row].
    rewrite (bind_ok _ _ _ _ _ Hout), (bind_ok _ _ _ _ _ Hc).
    assert (Hrep : (if negb b then print_err (MsgFailedToGenerate o)
                    else print (MsgGenerated o)) w1 = (Ok tt, w2))
      by (subst w2; destruct b; reflexivity).
    rewrite (bind_ok _ _ _ _ _ Hrep). exact Hrun'. }
  assert (Hmm : mail_merge E md out tpl bib csl csv_path false w
                = (Raise (SystemExit 0), w')).
  { unfold mail_merge.
    rewrite (bind_ok _ _ _ _ _ (require_file_ok _ _ _ _ Hcsv)).
    rewrite (bind_ok _ _ _ _ _ (read_file_ok _ _ _ Hcsv)).
    rewrite Hrows.
    destruct (pre ++ r :: post) as [|r0 rows0] eqn:Hall;
      [now destruct pre |].
    assert (Hp : print (MsgProcessing (length (r0 :: rows0))) w
                 = (Ok tt, announced w (r0 :: rows0))) by reflexivity.
    rewrite (bind_ok _ _ _ _ _ Hp), (bind_ok _ _ _ _ _ Hloop). reflexivity. }
  rewrite Hmm. cbn [fst snd]. split; [reflexivity |].
  exists nm, w0, b, w1,
    (Print (MsgProcessing (length (pre ++ r :: post))) :: evs0), evs'.
  split; [exact Hnm |]. split; [exact Hc |]. split; [| split].
  - rewrite (events_since_app w0 w1 evs Hl).
    apply events_since_app. rewrite Hl'. subst w2. cbn [log].
    rewrite Hl, Hl0. unfold announced. cbn [log].
    rewrite <- !app_assoc. reflexivity.
  - rewrite row_reports_cons. cbn [row_report].
    rewrite <- (length_map fst), Hreps0. now apply row_outputs_length.
  - rewrite <- (length_map fst), Hreps'. now apply row_outputs_length.
Qed.

End PerRowFacts.

Lemma per_row_mode_converts_every_row_witness :
  fst Sample.per_row_run = Raise (SystemExit 0)
  /\ exists nm w0 b w1 before after,
       row_output_name (stem Sample.out) 2 Sample.cy = Ok nm
       /\ convert_markdown_to_pdf (Sample.env (Some "Bob")) Sample.md
            (joinpath (parent Sample.out) nm) Sample.tpl
            (Some (dict_of_row Sample.cy)) None None w0 = (Ok b, w1)
       /\ events_since Sample.start (snd Sample.per_row_run)
          = before ++ events_since w0 w1
            ++ row_report_event (joinpath (parent Sample.out) nm) b :: after
       /\ length (row_reports before) = 2
       /\ length (row_reports after) = 0.
Proof.
  assert (Hcsv : files Sample.start !! Sample.csv = Some "people") by reflexivity.
  assert (Hrows : csv_rows (Sample.env (Some "Bob")) "people"
                  = [Sample.ann; Sample.bob] ++ Sample.cy :: []) by reflexivity.
  assert (Htext : forallb recipient_is_text
                    (csv_rows (Sample.env (Some "Bob")) "people") = true)
    by reflexivity.
  exact (per_row_mode_converts_every_row (Sample.env (Some "Bob")) Sample.md
           Sample.out Sample.tpl None None Sample.csv "people" Sample.start
           [Sample.ann; Sample.bob] Sample.cy [] Hcsv Hrows Htext).
Defined.
